(** * bookstore: a shallow embedding of main.go

    The service is one Go file.  Its own code is glue between five
    libraries (viper, the Vault client, database/sql with the Postgres
    driver, encoding/json and net/http), so the embedding has two layers:

    - the collaborators, each reduced to the behaviour main.go can
      observe (modules [strings], [json], [http], [sql], [viper],
      [vault]);
    - main.go itself, function by function and under the names it has in
      the source: [init], [main], [appHealth], [appReady], [booksIndex],
      [bookByISBN], [createBook], [BookModel.All], [BookModel.Get],
      [BookModel.Create], [loginVaultKubernetes], [Respond],
      [App.CheckDBConn]. *)

From Stdlib Require Import ZArith Ascii String List Bool Lia.
From stdpp Require Import base option list strings gmap.

Local Open Scope string_scope.
Local Open Scope Z_scope.
Local Open Scope list_scope.

Set Warnings "-register-all".

(** ** Go values *)

(** A Go [error] is only ever tested against nil and printed: it is
    modelled by its message. *)
Definition error : Type := string.

(** The Go pair [(value, err)] with exactly one side meaningful. *)
Inductive result (A : Type) : Type :=
| Ok (a : A)
| Err (e : error).
Arguments Ok {A} a.
Arguments Err {A} e.

Definition isOk {A} (r : result A) : bool :=
  match r with Ok _ => true | Err _ => false end.

(** A [float32] is carried as its IEEE-754 binary32 bit pattern.  The
    program never computes with a price; it only moves it between JSON,
    the struct and SQL, and the libraries only ask whether it is finite. *)
Definition float32 : Type := Z.

Definition float32_exponent (f : float32) : Z := Z.land (Z.shiftr f 23) 255.

(** Neither an infinity nor a NaN: the exponent field is not all ones. *)
Definition float32_finite (f : float32) : bool :=
  negb (float32_exponent f =? 255).

(** fmt.Errorf("<prefix>: %w", err) *)
Definition Errorf (prefix : string) (err : error) : error :=
  prefix +:+ ": " +:+ err.

(** ** The Book struct (main.go, lines 179-184) *)

Record Book : Type := mkBook {
  Isbn : string;
  Title : string;
  Author : string;
  Price : float32
}.

(** [var bk Book]: every field at its zero value. *)
Definition zeroBook : Book := mkBook "" "" "" 0.

(** ** package strings, on ASCII *)

Module strings.

Definition is_lower (c : ascii) : bool :=
  let n := nat_of_ascii c in ((97 <=? n) && (n <=? 122))%nat.

Definition is_upper (c : ascii) : bool :=
  let n := nat_of_ascii c in ((65 <=? n) && (n <=? 90))%nat.

Definition upper_ascii (c : ascii) : ascii :=
  if is_lower c then ascii_of_nat (nat_of_ascii c - 32) else c.

Definition lower_ascii (c : ascii) : ascii :=
  if is_upper c then ascii_of_nat (nat_of_ascii c + 32) else c.

Fixpoint map_bytes (f : ascii -> ascii) (s : string) : string :=
  match s with
  | EmptyString => EmptyString
  | String c rest => String (f c) (map_bytes f rest)
  end.

(** strings.ToUpper and strings.ToLower on ASCII strings: bytes outside
    a-z and A-Z are kept.  Go maps every Unicode letter, so these are
    Go's functions only on strings that satisfy [is_ascii], as the
    twelve names main.go reads do; statements about other keys carry
    that condition. *)
Definition ToUpper : string -> string := map_bytes upper_ascii.
Definition ToLower : string -> string := map_bytes lower_ascii.

(** Every byte is below 128. *)
Fixpoint is_ascii (s : string) : bool :=
  match s with
  | EmptyString => true
  | String c rest => (nat_of_ascii c <? 128)%nat && is_ascii rest
  end.

Definition in_range (lo hi : nat) (c : ascii) : bool :=
  ((lo <=? nat_of_ascii c) && (nat_of_ascii c <=? hi))%nat.

(** A continuation byte, 80..BF. *)
Definition continuation (c : ascii) : bool := in_range 128 191 c.

(** The first two bytes of a well-formed sequence of three, and of
    four: no overlong form, no surrogate, nothing above U+10FFFF. *)
Definition lead3 (c c1 : ascii) : bool :=
  (in_range 224 224 c && in_range 160 191 c1)
  || (in_range 225 236 c && continuation c1)
  || (in_range 237 237 c && in_range 128 159 c1)
  || (in_range 238 239 c && continuation c1).

Definition lead4 (c c1 : ascii) : bool :=
  (in_range 240 240 c && in_range 144 191 c1)
  || (in_range 241 243 c && continuation c1)
  || (in_range 244 244 c && in_range 128 143 c1).

(** utf8.ValidString: the bytes are well-formed UTF-8. *)
Fixpoint utf8_valid (s : string) : bool :=
  match s with
  | EmptyString => true
  | String c rest =>
      if (nat_of_ascii c <? 128)%nat then utf8_valid rest
      else
        match rest with
        | EmptyString => false
        | String c1 rest1 =>
            if in_range 194 223 c && continuation c1 then utf8_valid rest1
            else
              match rest1 with
              | EmptyString => false
              | String c2 rest2 =>
                  if lead3 c c1 && continuation c2 then utf8_valid rest2
                  else
                    match rest2 with
                    | EmptyString => false
                    | String c3 rest3 =>
                        lead4 c c1 && continuation c2 && continuation c3
                        && utf8_valid rest3
                    end
              end
        end
  end.

(** Trailing blanks removed; the comparison rule of a char(n) column. *)
Fixpoint trim_right_spaces (s : string) : string :=
  match s with
  | EmptyString => EmptyString
  | String c rest =>
      match trim_right_spaces rest with
      | EmptyString => if Ascii.eqb c " " then EmptyString else String c EmptyString
      | rest' => String c rest'
      end
  end.

End strings.

(** ** package encoding/json, at the level of JSON values *)

Module json.

(** A JSON value.  A number literal is identified with the float32
    that strconv.ParseFloat(literal, 32) returns for it, which is an
    infinity exactly when the literal is out of range. *)
Inductive value : Type :=
| Null
| Bool (b : bool)
| Number (f : float32)
| String (s : string)
| Array (items : list value)
| Object (members : list (string * value)).

(** What the decoder calls the kind of a value in its type errors. *)
Definition kind (v : value) : string :=
  match v with
  | Null => "null"
  | Bool _ => "bool"
  | Number _ => "number"
  | String _ => "string"
  | Array _ => "array"
  | Object _ => "object"
  end.

(** The four tagged fields of Book, in declaration order. *)
Inductive field : Type := FIsbn | FTitle | FAuthor | FPrice.

Definition field_name (f : field) : string :=
  match f with
  | FIsbn => "ISBN"
  | FTitle => "Title"
  | FAuthor => "Author"
  | FPrice => "Price"
  end.

Definition fields : list field := [FIsbn; FTitle; FAuthor; FPrice].

(** The decoder's case folding of an object key: ASCII letters go to
    upper case, and the two non-ASCII runes that fold onto an ASCII
    letter do so too (U+017F, bytes C5 BF, onto S; U+212A, bytes
    E2 84 AA, onto K).  Other runes are left alone: they never fold to
    an ASCII letter, so whether a key matches one of the four ASCII
    field names is decided as in Go. *)
Fixpoint foldName (s : string) : string :=
  match s with
  | EmptyString => EmptyString
  | String.String c rest =>
      match nat_of_ascii c, rest with
      | 197%nat, String.String c1 rest1 =>
          if (nat_of_ascii c1 =? 191)%nat
          then String.String "S" (foldName rest1)
          else String.String c (foldName rest)
      | 226%nat, String.String c1 (String.String c2 rest2) =>
          if ((nat_of_ascii c1 =? 132) && (nat_of_ascii c2 =? 170))%nat
          then String.String "K" (foldName rest2)
          else String.String c (foldName rest)
      | _, _ => String.String (strings.upper_ascii c) (foldName rest)
      end
  end.

(** The field an object key is stored into: an exact match of the tag
    first, a match up to case folding otherwise, none for an unknown
    key (which the decoder skips). *)
Definition lookup_field (key : string) : option field :=
  match List.find (fun f => String.eqb (field_name f) key) fields with
  | Some f => Some f
  | None =>
      List.find (fun f => String.eqb (foldName (field_name f)) (foldName key)) fields
  end.

Definition type_error (v : value) (f : field) : error :=
  "json: cannot unmarshal " +:+ kind v +:+ " into Go struct field Book." +:+
  field_name f +:+ " of type " +:+
  match f with FPrice => "float32" | _ => "string" end.

(** Storing one member value into one field.  null leaves the field as
    it is; a string goes into a string field; a number goes into Price
    when it fits a float32; anything else is a type error. *)
Definition store (f : field) (v : value) (bk : Book) : result Book :=
  match f, v with
  | _, Null => Ok bk
  | FIsbn, String s => Ok (mkBook s (Title bk) (Author bk) (Price bk))
  | FTitle, String s => Ok (mkBook (Isbn bk) s (Author bk) (Price bk))
  | FAuthor, String s => Ok (mkBook (Isbn bk) (Title bk) s (Price bk))
  | FPrice, Number x =>
      if float32_finite x
      then Ok (mkBook (Isbn bk) (Title bk) (Author bk) x)
      else Err (type_error v f)
  | _, _ => Err (type_error v f)
  end.

(** The members of an object, in the order they are written.  A type
    error does not stop the decoder: it saves the first one and goes
    on with the next member. *)
Fixpoint object (members : list (string * value)) (bk : Book) (saved : option error)
  : Book * option error :=
  match members with
  | [] => (bk, saved)
  | (key, v) :: rest =>
      match lookup_field key with
      | None => object rest bk saved
      | Some f =>
          match store f v bk with
          | Ok bk' => object rest bk' saved
          | Err e => object rest bk (Some (default e saved))
          end
      end
  end.

(** Unmarshalling a value into a Book variable: the variable afterwards
    and the error returned. *)
Definition unmarshalBook (v : value) (bk : Book) : Book * option error :=
  match v with
  | Null => (bk, None)
  | Object members => object members bk None
  | _ => (bk, Some ("json: cannot unmarshal " +:+ kind v +:+
                    " into Go value of type main.Book"))
  end.

(** What a request body holds for a decoder: no JSON value at all (the
    body is empty or is not JSON syntax), or a first JSON value. *)
Inductive Body : Type :=
| Malformed (e : error)
| Value (v : value).

(** json.NewDecoder(body).Decode(&bk) *)
Definition Decode (body : Body) (bk : Book) : Book * option error :=
  match body with
  | Malformed e => (bk, Some e)
  | Value v => unmarshalBook v bk
  end.

(** A Book as a JSON object: the four tagged fields in declaration
    order. *)
Definition book_object (bk : Book) : value :=
  Object [("ISBN", String (Isbn bk)); ("Title", String (Title bk));
          ("Author", String (Author bk)); ("Price", Number (Price bk))].

(** Marshalling.  A price that is an infinity or a NaN is refused.
    The strings are kept as they are, which is what Marshal does to
    well-formed UTF-8 (it writes U+FFFD for any other byte; that
    replacement is not modelled, and a statement that depends on it
    carries [strings.utf8_valid]). *)
Definition marshalBook (bk : Book) : result value :=
  if float32_finite (Price bk)
  then Ok (book_object bk)
  else Err "json: unsupported value".

Fixpoint marshalItems (bks : list Book) : result (list value) :=
  match bks with
  | [] => Ok []
  | bk :: rest =>
      match marshalBook bk with
      | Err e => Err e
      | Ok v =>
          match marshalItems rest with
          | Err e => Err e
          | Ok vs => Ok (v :: vs)
          end
      end
  end.

(** A Go slice of books is nil or has elements: [None] is the nil
    slice, which marshals to null; any other slice marshals to an
    array. *)
Definition marshalBooks (bks : option (list Book)) : result value :=
  match bks with
  | None => Ok Null
  | Some l =>
      match marshalItems l with
      | Ok vs => Ok (Array vs)
      | Err e => Err e
      end
  end.

End json.

(** ** package net/http: the response a handler builds *)

Module http.

(** What a handler writes to the body: a line of text (fmt.Fprintln) or
    a JSON document followed by a newline (Encoder.Encode). *)
Inductive chunk : Type :=
| Line (text : string)
| Doc (v : json.value).

(** A ResponseWriter: the header map the handler edits, and what has
    gone out.  The status line and the headers go out with the first
    WriteHeader; a later WriteHeader is ignored and later edits of the
    header map are not sent. *)
Record ResponseWriter : Type := mkWriter {
  header : gmap string string;
  status : option Z;
  sent_header : gmap string string;
  body : list chunk
}.

Definition NewWriter : ResponseWriter := mkWriter ∅ None ∅ [].

(** w.Header().Set(key, val) *)
Definition Header_Set (key val : string) (w : ResponseWriter) : ResponseWriter :=
  mkWriter (<[key := val]> (header w)) (status w) (sent_header w) (body w).

Definition WriteHeader (code : Z) (w : ResponseWriter) : ResponseWriter :=
  match status w with
  | Some _ => w
  | None => mkWriter (header w) (Some code) (header w) (body w)
  end.

(** A write before any WriteHeader sends status 200 first. *)
Definition Write (c : chunk) (w : ResponseWriter) : ResponseWriter :=
  let w1 := WriteHeader 200 w in
  mkWriter (header w1) (status w1) (sent_header w1) (body w1 ++ [c]).

Definition Fprintln (text : string) (w : ResponseWriter) : ResponseWriter :=
  Write (Line text) w.

Definition StatusText (code : Z) : string :=
  match code with
  | 200 => "OK"
  | 400 => "Bad Request"
  | 500 => "Internal Server Error"
  | _ => ""
  end.

(** http.Error(w, error, code) *)
Definition Error (error : string) (code : Z) (w : ResponseWriter) : ResponseWriter :=
  Fprintln error
    (WriteHeader code
       (Header_Set "X-Content-Type-Options" "nosniff"
          (Header_Set "Content-Type" "text/plain; charset=utf-8" w))).

(** What the client receives once the handler has returned: a handler
    that wrote nothing still answers 200, with an empty body. *)
Record Response : Type := mkResponse {
  StatusCode : Z;
  Headers : gmap string string;
  Body : list chunk
}.

Definition finish (w : ResponseWriter) : Response :=
  let w1 := WriteHeader 200 w in
  mkResponse (default 200 (status w1)) (sent_header w1) (body w1).

(** The part of a request the handlers read: the body, and the path
    variables the router extracted (mux.Vars). *)
Record Request : Type := mkRequest {
  ReqBody : json.Body;
  Vars : gmap string string
}.

End http.

(** ** package database/sql over the Postgres driver, and the server *)

Module sql.

(** A bound parameter or a column of a result row. *)
Inductive value : Type :=
| VString (s : string)
| VFloat (f : float32)
| VInt (n : Z).

Definition Row : Type := list value.

(** What the connection has been asked: statements prepared, and
    statements run together with their bound parameters. *)
Inductive call : Type :=
| Prepared (query : string)
| Ran (query : string) (args : list value).

(** The database as the program sees it through its *sql.DB handle:
    whether the server answers, the rows of table [books] in storage
    order, what the column types char(14), varchar(255), varchar(255)
    and decimal(5,2) make of a row handed to INSERT (the row as stored,
    or nothing when the value is rejected), and the calls made so far,
    oldest first. *)
Record DB : Type := mkDB {
  online : bool;
  books : list Book;
  columns : Book -> option Book;
  wire : list call
}.

Definition record (c : call) (db : DB) : DB :=
  mkDB (online db) (books db) (columns db) (wire db ++ [c]).

Definition ErrNoRows : error := "sql: no rows in result set".
Definition ErrConn : error := "dial tcp: connect: connection refused".

(** Equality on a char(n) column ignores trailing blanks. *)
Definition bpchar_eq (a b : string) : bool :=
  String.eqb (strings.trim_right_spaces a) (strings.trim_right_spaces b).

Definition row_of (bk : Book) : Row :=
  [VString (Isbn bk); VString (Title bk); VString (Author bk); VFloat (Price bk)].

(** The statements the server is modelled for; any other text is
    answered with a syntax error. *)
Definition known (query : string) : bool :=
  String.eqb query "SELECT 1"
  || String.eqb query "SELECT * FROM books"
  || String.eqb query "SELECT * FROM books WHERE isbn=$1;"
  || String.eqb query "INSERT INTO books (isbn, title, author, price) VALUES ($1, $2, $3, $4);".

Definition bind_error : error := "pq: bind message supplies the wrong parameters".

(** The server executing a statement on the table: the result rows and
    the table afterwards.  [isbn] is the primary key. *)
Definition execute (query : string) (args : list value) (db : DB)
  : result (list Row) * list Book :=
  if String.eqb query "SELECT 1" then (Ok [[VInt 1]], books db)
  else if String.eqb query "SELECT * FROM books" then
    (Ok (List.map row_of (books db)), books db)
  else if String.eqb query "SELECT * FROM books WHERE isbn=$1;" then
    match args with
    | [VString key] =>
        (Ok (List.map row_of
               (List.filter (fun bk => bpchar_eq (Isbn bk) key) (books db))),
         books db)
    | _ => (Err bind_error, books db)
    end
  else if String.eqb query
            "INSERT INTO books (isbn, title, author, price) VALUES ($1, $2, $3, $4);" then
    match args with
    | [VString i; VString t; VString a; VFloat p] =>
        match columns db (mkBook i t a p) with
        | None => (Err "pq: value out of range for the column type", books db)
        | Some stored =>
            if List.existsb (fun bk => bpchar_eq (Isbn bk) (Isbn stored)) (books db)
            then (Err "pq: duplicate key value violates unique constraint", books db)
            else (Ok [], books db ++ [stored])
        end
    | _ => (Err bind_error, books db)
    end
  else (Err "pq: syntax error", books db).

(** One round trip: the call is recorded, and it fails when the server
    does not answer. *)
Definition run (query : string) (args : list value) (db : DB) : result (list Row) * DB :=
  let db1 := record (Ran query args) db in
  if online db then
    let '(res, table) := execute query args db in
    (res, mkDB (online db1) table (columns db1) (wire db1))
  else (Err ErrConn, db1).

(** A prepared statement is its text. *)
Definition Stmt : Type := string.

(** db.Prepare(query) *)
Definition Prepare (query : string) (db : DB) : result Stmt * DB :=
  let db1 := record (Prepared query) db in
  if online db then
    if known query then (Ok query, db1) else (Err "pq: syntax error", db1)
  else (Err ErrConn, db1).

(** stmt.Query(args...), stmt.Exec(args...) and db.Query(query, args...) *)
Definition Stmt_Query (stmt : Stmt) (args : list value) : DB -> result (list Row) * DB :=
  run stmt args.
Definition Stmt_Exec (stmt : Stmt) (args : list value) : DB -> result (list Row) * DB :=
  run stmt args.
Definition Query (query : string) (args : list value) : DB -> result (list Row) * DB :=
  run query args.

(** Scanning one column into a string or a float32 destination.  The
    columns of [books] arrive as three strings and a number; a number
    into a string destination, or the reverse, is not produced by any
    statement of main.go and is reported as a conversion error. *)
Definition scan_string (v : value) : result string :=
  match v with
  | VString s => Ok s
  | _ => Err "sql: Scan error: unsupported conversion"
  end.

Definition scan_float32 (v : value) : result float32 :=
  match v with
  | VFloat f => Ok f
  | _ => Err "sql: Scan error: unsupported conversion"
  end.

(** rows.Scan(&bk.Isbn, &bk.Title, &bk.Author, &bk.Price) *)
Definition ScanBook (row : Row) : result Book :=
  match row with
  | [c1; c2; c3; c4] =>
      match scan_string c1, scan_string c2, scan_string c3, scan_float32 c4 with
      | Ok i, Ok t, Ok a, Ok p => Ok (mkBook i t a p)
      | Err e, _, _, _ => Err e
      | _, Err e, _, _ => Err e
      | _, _, Err e, _ => Err e
      | _, _, _, Err e => Err e
      end
  | _ => Err "sql: expected a different number of destination arguments in Scan"
  end.

(** rows.Scan(&health) with [var health any]: one column, any type. *)
Definition ScanAny (row : Row) : result value :=
  match row with
  | [c] => Ok c
  | _ => Err "sql: expected a different number of destination arguments in Scan"
  end.

(** stmt.QueryRow(args...).Scan(...): the first row, ErrNoRows when
    there is none. *)
Definition Stmt_QueryRow_ScanBook (stmt : Stmt) (args : list value) (db : DB)
  : result Book * DB :=
  match Stmt_Query stmt args db with
  | (Err e, db1) => (Err e, db1)
  | (Ok [], db1) => (Err ErrNoRows, db1)
  | (Ok (row :: _), db1) => (ScanBook row, db1)
  end.

End sql.

(** ** main.go: the repository (lines 186-254) and the health check
    (lines 286-311)

    Methods on the connection thread the database through explicitly and
    return the Go pair they return in the source.  [defer stmt.Close()]
    and [defer rows.Close()] have no effect the program can observe and
    are left out. *)

(** A Go slice is nil ([None]) or not; [append] makes it non-nil. *)
Definition append {A} (s : option (list A)) (x : A) : option (list A) :=
  Some (default [] s ++ [x]).

Module BookModel.

(** The loop [for rows.Next() { ... rows.Scan ... bks = append(bks, bk) }]
    followed by the check of rows.Err(), which is nil here. *)
Fixpoint scan_rows (rows : list sql.Row) (bks : option (list Book))
  : option (list Book) * option error :=
  match rows with
  | [] => (bks, None)
  | row :: rest =>
      match sql.ScanBook row with
      | Err e => (None, Some e)
      | Ok bk => scan_rows rest (append bks bk)
      end
  end.

Definition All (db : sql.DB) : (option (list Book) * option error) * sql.DB :=
  match sql.Prepare "SELECT * FROM books" db with
  | (Err e, db1) => ((None, Some e), db1)
  | (Ok stmt, db1) =>
      match sql.Stmt_Query stmt [] db1 with
      | (Err e, db2) => ((None, Some e), db2)
      | (Ok rows, db2) => (scan_rows rows None, db2)
      end
  end.

Definition Get (isbn : string) (db : sql.DB) : (option Book * option error) * sql.DB :=
  match sql.Prepare "SELECT * FROM books WHERE isbn=$1;" db with
  | (Err e, db1) => ((None, Some e), db1)
  | (Ok stmt, db1) =>
      match sql.Stmt_QueryRow_ScanBook stmt [sql.VString isbn] db1 with
      | (Err e, db2) => ((None, Some e), db2)
      | (Ok bk, db2) => ((Some bk, None), db2)
      end
  end.

(** Create receives a pointer: besides the error it returns the Book
    behind that pointer as the call leaves it. *)
Definition Create (bk : Book) (db : sql.DB) : (Book * option error) * sql.DB :=
  match sql.Prepare
          "INSERT INTO books (isbn, title, author, price) VALUES ($1, $2, $3, $4);" db with
  | (Err e, db1) => ((bk, Some e), db1)
  | (Ok stmt, db1) =>
      match sql.Stmt_Exec stmt
              [sql.VString (Isbn bk); sql.VString (Title bk);
               sql.VString (Author bk); sql.VFloat (Price bk)] db1 with
      | (Err e, db2) => ((bk, Some e), db2)
      | (Ok _, db2) => ((bk, None), db2)
      end
  end.

End BookModel.

Module App.

Fixpoint scan_health (rows : list sql.Row) : option error :=
  match rows with
  | [] => None
  | row :: rest =>
      match sql.ScanAny row with
      | Err e => Some e
      | Ok _ => scan_health rest
      end
  end.

Definition CheckDBConn (db : sql.DB) : option error * sql.DB :=
  match sql.Query "SELECT 1" [] db with
  | (Err e, db1) => (Some e, db1)
  | (Ok rows, db1) => (scan_health rows, db1)
  end.

End App.

(** ** main.go: Env and the handlers (lines 103-177, 279-284) *)

(** The two interface-typed fields of Env, over any state [S] an
    implementation keeps. *)
Record AppChecker (S : Type) : Type := mkAppChecker {
  CheckDBConn : S -> option error * S
}.

Record BookStore (S : Type) : Type := mkBookStore {
  All : S -> (option (list Book) * option error) * S;
  Get : string -> S -> (option Book * option error) * S;
  Create : Book -> S -> (Book * option error) * S
}.

Record Env (S : Type) : Type := mkEnv {
  app : AppChecker S;
  books : BookStore S
}.

Arguments CheckDBConn {S} _ _.
Arguments All {S} _ _.
Arguments Get {S} _ _ _.
Arguments Create {S} _ _ _.
Arguments app {S} _.
Arguments books {S} _.
Arguments mkEnv {S} _ _.
Arguments mkAppChecker {S} _.
Arguments mkBookStore {S} _ _ _.

(** What a handler works on: the response writer, the server log, and
    the state behind Env. *)
Record Ctx (S : Type) : Type := mkCtx {
  writer : http.ResponseWriter;
  logged : list string;
  backend : S
}.
Arguments mkCtx {S} _ _ _.
Arguments writer {S} _.
Arguments logged {S} _.
Arguments backend {S} _.

Definition Handler (S A : Type) : Type := Ctx S -> A * Ctx S.

Definition ret {S A} (a : A) : Handler S A := fun c => (a, c).

Definition bind {S A B} (m : Handler S A) (k : A -> Handler S B) : Handler S B :=
  fun c => let '(a, c1) := m c in k a c1.

Declare Scope handler_scope.
Delimit Scope handler_scope with handler.
Notation "'do' x <- m ; k" := (bind m (fun x => k))
  (at level 10, x name, m at level 100, k at level 200) : handler_scope.
Notation "m ;; k" := (bind m (fun _ => k))
  (at level 100, k at level 200, right associativity) : handler_scope.
Local Open Scope handler_scope.

(** A method of Env called from a handler. *)
Definition call {S A} (f : S -> A * S) : Handler S A :=
  fun c => let '(a, s) := f (backend c) in (a, mkCtx (writer c) (logged c) s).

(** An operation on the response writer. *)
Definition respond {S} (f : http.ResponseWriter -> http.ResponseWriter) : Handler S unit :=
  fun c => (tt, mkCtx (f (writer c)) (logged c) (backend c)).

(** log.Print(err) *)
Definition log_Print {S} (e : error) : Handler S unit :=
  fun c => (tt, mkCtx (writer c) (logged c ++ [e]) (backend c)).

(** json.NewEncoder(w).Encode(v), its error dropped as the handlers do:
    when marshalling fails nothing is written. *)
Definition Encode {S} (v : result json.value) : Handler S unit :=
  match v with
  | Ok doc => respond (http.Write (http.Doc doc))
  | Err _ => ret tt
  end.

Definition Respond (text : string) (code : Z) (w : http.ResponseWriter)
  : http.ResponseWriter :=
  http.Fprintln text
    (http.WriteHeader code
       (http.Header_Set "X-Content-Type-Options" "nosniff"
          (http.Header_Set "Content-Type" "text/plain; charset=utf-8" w))).

Section Handlers.
Context {S : Type}.
Variable env : Env S.

(** The error branch has no [return]: control falls through to Respond. *)
Definition appHealth (r : http.Request) : Handler S unit :=
  do err <- call (CheckDBConn (app env));
  (match err with
   | Some e =>
       log_Print e ;;
       respond (http.Error (http.StatusText 500) 500)
   | None => ret tt
   end) ;;
  respond (Respond (http.StatusText 200) 200).

Definition appReady (r : http.Request) : Handler S unit :=
  do err <- call (CheckDBConn (app env));
  (match err with
   | Some e =>
       log_Print e ;;
       respond (http.Error (http.StatusText 500) 500)
   | None => ret tt
   end) ;;
  respond (Respond (http.StatusText 200) 200).

Definition booksIndex (r : http.Request) : Handler S unit :=
  do res <- call (All (books env));
  match res with
  | (_, Some e) =>
      log_Print e ;;
      respond (http.Error (http.StatusText 500) 500)
  | (bks, None) => Encode (json.marshalBooks bks)
  end.

(** [bk] is a *Book: a nil pointer is marshalled as null. *)
Definition bookByISBN (r : http.Request) : Handler S unit :=
  let isbn := default "" (http.Vars r !! "isbn") in
  do res <- call (Get (books env) isbn);
  match res with
  | (_, Some e) =>
      log_Print e ;;
      respond (http.Error (http.StatusText 500) 500)
  | (Some bk, None) => Encode (json.marshalBook bk)
  | (None, None) => Encode (Ok json.Null)
  end.

Definition createBook (r : http.Request) : Handler S unit :=
  match json.Decode (http.ReqBody r) zeroBook with
  | (_, Some e) =>
      log_Print e ;;
      respond (http.Error (http.StatusText 400) 400)
  | (bk, None) =>
      do res <- call (Create (books env) bk);
      match res with
      | (_, Some e) =>
          log_Print e ;;
          respond (http.Error (http.StatusText 500) 500)
      | (bk1, None) => Encode (json.marshalBook bk1)
      end
  end.

(** The five routes registered in main (lines 93-98). *)
Inductive Route : Type :=
| GET_healthz
| GET_readyz
| GET_books
| POST_books
| GET_books_isbn.

Definition router (route : Route) : http.Request -> Handler S unit :=
  match route with
  | GET_healthz => appHealth
  | GET_readyz => appReady
  | GET_books => booksIndex
  | POST_books => createBook
  | GET_books_isbn => bookByISBN
  end.

(** One request served on a fresh response writer: the response sent,
    the lines logged, and the state afterwards. *)
Definition serve (h : http.Request -> Handler S unit) (r : http.Request) (s : S)
  : http.Response * list string * S :=
  let '(_, c) := h r (mkCtx http.NewWriter [] s) in
  (http.finish (writer c), logged c, backend c).

End Handlers.

(** The Env that main builds: both fields over the one connection
    (lines 86-89). *)
Definition mainEnv : Env sql.DB :=
  mkEnv (mkAppChecker App.CheckDBConn)
        (mkBookStore BookModel.All BookModel.Get BookModel.Create).

(** ** package viper: the configuration registry

    Of viper's layers (explicit Set, flags, environment, configuration,
    key/value store, defaults, searched in that order) main.go fills
    two: AutomaticEnv switches the environment layer on, and
    MergeConfigMap writes into the configuration layer.  The other
    layers stay empty and are left out.  Values are strings, as the
    values main.go reads with GetString are.

    Keys are compared up to case with the ASCII functions of [strings],
    and a key is looked up as one name; viper splits a key at dots into
    a path, and the operating system has no variable with an empty name
    or with = in its name.  The model is therefore viper's search on
    the keys that satisfy [plain_key]: not empty, and made of ASCII
    letters, digits and underscores, as the twelve names of main.go
    are. *)

Module viper.

Definition word_char (c : ascii) : bool :=
  strings.is_lower c || strings.is_upper c || strings.in_range 48 57 c
  || Ascii.eqb c "_".

Fixpoint word_chars (s : string) : bool :=
  match s with
  | EmptyString => true
  | String c rest => word_char c && word_chars rest
  end.

(** A key that is not empty and has only letters, digits and
    underscores. *)
Definition plain_key (key : string) : bool :=
  negb (String.eqb key "") && word_chars key.

Record Viper : Type := mkViper {
  automaticEnvApplied : bool;
  config : gmap string string
}.

Definition New : Viper := mkViper false ∅.

Definition AutomaticEnv (v : Viper) : Viper := mkViper true (config v).

(** os.LookupEnv, with viper's rule that a variable set to the empty
    string counts as unset (AllowEmptyEnv is off). *)
Definition getEnv (environ : gmap string string) (key : string) : option string :=
  match environ !! key with
  | Some val => if String.eqb val "" then None else Some val
  | None => None
  end.

(** The search behind every Get, on the lower-cased key: the
    environment (under the upper-cased name) before the configuration
    layer. *)
Definition find (environ : gmap string string) (v : Viper) (lcaseKey : string)
  : option string :=
  match (if automaticEnvApplied v
         then getEnv environ (strings.ToUpper lcaseKey) else None) with
  | Some val => Some val
  | None => config v !! lcaseKey
  end.

Definition GetString (environ : gmap string string) (v : Viper) (key : string) : string :=
  default "" (find environ v (strings.ToLower key)).

(** Keys are case-insensitive: a map is lower-cased on its way in. *)
Definition insensitiviseMap (cfg : gmap string string) : gmap string string :=
  map_fold (fun key val acc => <[strings.ToLower key := val]> acc) ∅ cfg.

(** MergeConfigMap: the entries of [cfg] replace those of the
    configuration layer.  It has no failing path. *)
Definition MergeConfigMap (cfg : gmap string string) (v : Viper) : Viper * option error :=
  (mkViper (automaticEnvApplied v) (insensitiviseMap cfg ∪ config v), None).

End viper.

(** ** package vault/api and its Kubernetes auth method *)

Module vault.

Record KVSecret : Type := mkKVSecret {
  Data : gmap string string
}.

(** The client: the token it sends with a request, if it has one. *)
Record Client : Type := mkClient {
  token : option string
}.

(** The secret store and the files around the process, as functions of
    what the program hands them:
    - whether vault.NewClient(vault.DefaultConfig()) fails;
    - the service-account token read by auth.NewKubernetesAuth from the
      role name and the token path (it fails on an empty role or an
      unreadable file);
    - the answer of the Kubernetes login for a role and that token: an
      error, no auth info, or auth info carrying a client token;
    - the answer of a KV version 2 read for a client token, a mount and
      a path. *)
Record Store : Type := mkStore {
  client_error : option error;
  NewKubernetesAuth : string -> string -> result string;
  Login : string -> string -> result (option string);
  KVv2_Get : option string -> string -> string -> result KVSecret
}.

(** vault.NewClient: the client starts with the token in VAULT_TOKEN
    when that variable is set and not empty. *)
Definition NewClient (environ : gmap string string) (store : Store) : result Client :=
  match client_error store with
  | Some e => Err e
  | None =>
      let tok := default "" (environ !! "VAULT_TOKEN") in
      Ok (mkClient (if String.eqb tok "" then None else Some tok))
  end.

End vault.

(** ** main.go: start-up (lines 18-101, 256-277) *)

Definition PORT := "PORT".
Definition VAULT_ADDR := "VAULT_ADDR".
Definition VAULT_ROLE := "VAULT_ROLE".
Definition VAULT_KV_MOUNT := "VAULT_KV_MOUNT".
Definition VAULT_BOOKSTORE_ENV := "VAULT_BOOKSTORE_ENV".
Definition KUBE_SVC_ACCT_TOKEN := "KUBE_SVC_ACCT_TOKEN".
Definition DB_HOST := "DB_HOST".
Definition DB_PORT := "DB_PORT".
Definition DB_NAME := "DB_NAME".
Definition DB_USER := "DB_USER".
Definition DB_PASS := "DB_PASS".
Definition DB_SSL := "DB_SSL".

(** What the process starts in: its environment variables and the
    secret store it can reach. *)
Record World : Type := mkWorld {
  environ : gmap string string;
  store : vault.Store
}.

(** The global [conf] is passed explicitly.  A successful login leaves
    its client token in the client. *)
Definition loginVaultKubernetes (w : World) (conf : viper.Viper) (client : vault.Client)
  : option error * vault.Client :=
  let vaultRole := viper.GetString (environ w) conf VAULT_ROLE in
  let kubeToken := viper.GetString (environ w) conf KUBE_SVC_ACCT_TOKEN in
  match vault.NewKubernetesAuth (store w) vaultRole kubeToken with
  | Err e => (Some (Errorf "unable to initialize Kubernetes auth method" e), client)
  | Ok jwt =>
      match vault.Login (store w) vaultRole jwt with
      | Err e => (Some (Errorf "unable to log in with Kubernetes auth" e), client)
      | Ok None => (Some "no auth info was returned after login", client)
      | Ok (Some tok) => (None, vault.mkClient (Some tok))
      end
  end.

(** How init ends: log.Fatalf prints and exits with status 1, so main
    never runs; otherwise [conf] is ready for main.  Both carry the
    lines logged, oldest first. *)
Inductive Startup : Type :=
| Fatal (log : list string)
| Ready (conf : viper.Viper) (log : list string).

(** init, with the merge of the secret into [conf] as a parameter, so
    that the branch taken when the merge reports an error (lines 62-65)
    is there to be examined whatever the merge is. *)
Definition init_with
    (merge : gmap string string -> viper.Viper -> viper.Viper * option error)
    (w : World) : Startup :=
  let conf := viper.AutomaticEnv viper.New in
  let kvMount := viper.GetString (environ w) conf VAULT_KV_MOUNT in
  let bookstoreEnv := viper.GetString (environ w) conf VAULT_BOOKSTORE_ENV in
  match vault.NewClient (environ w) (store w) with
  | Err e => Fatal ["unable to initialize Vault client: " +:+ e]
  | Ok client =>
      let '(err, client1) := loginVaultKubernetes w conf client in
      let log1 :=
        match err with
        | Some e => ["vault login failed: %w " +:+ e]
        | None => []
        end in
      match vault.KVv2_Get (store w) (vault.token client1) kvMount bookstoreEnv with
      | Err e => Fatal (log1 ++ ["unable to read secret: " +:+ e])
      | Ok secret =>
          match merge (vault.Data secret) conf with
          | (_, Some e) => Fatal (log1 ++ ["unable to merge secret: " +:+ e])
          | (conf1, None) => Ready conf1 log1
          end
      end
  end.

(** init as main.go has it: the merge is viper's. *)
Definition init : World -> Startup := init_with viper.MergeConfigMap.

(** What main has set up when it reaches its last line: the data
    source name of the one connection and the address to listen on.
    sql.Open only records the name (it fails for an unregistered
    driver, and the Postgres driver is imported), so its error branch
    is left out.  The last line, log.Fatal(http.ListenAndServe(...)),
    is not modelled: whether the address can be bound, and the exit
    when it cannot, are outside [main]. *)
Record Listening : Type := mkListening {
  dataSourceName : string;
  addr : string
}.

Definition main (w : World) (conf : viper.Viper) : Listening :=
  let get := viper.GetString (environ w) conf in
  let port := get PORT in
  let dbUser := get DB_USER in
  let dbPass := get DB_PASS in
  let dbHost := get DB_HOST in
  let dbPort := get DB_PORT in
  let dbName := get DB_NAME in
  let dbSSL := get DB_SSL in
  mkListening
    ("postgres://" +:+ dbUser +:+ ":" +:+ dbPass +:+ "@" +:+ dbHost +:+ ":" +:+
     dbPort +:+ "/" +:+ dbName +:+ "?sslmode=" +:+ dbSSL)
    (":" +:+ port).

(** The process: init runs before main, and a fatal init exits before
    main, hence before any request is served.  [Serving] says that main
    has reached ListenAndServe with these settings, not that the
    listener came up. *)
Inductive Process : Type :=
| Exited (status : Z) (log : list string)
| Serving (server : Listening) (log : list string).

Definition start_with
    (merge : gmap string string -> viper.Viper -> viper.Viper * option error)
    (w : World) : Process :=
  match init_with merge w with
  | Fatal log => Exited 1 log
  | Ready conf log => Serving (main w conf) log
  end.

Definition start : World -> Process := start_with viper.MergeConfigMap.

(** * Vocabulary of the statements *)

(** The headers both Respond and http.Error send. *)
Definition plain_text_headers : gmap string string :=
  <["X-Content-Type-Options" := "nosniff"]>
    (<["Content-Type" := "text/plain; charset=utf-8"]> ∅).

(** The response of http.Error(w, http.StatusText(code), code) on a
    fresh writer. *)
Definition error_response (code : Z) : http.Response :=
  http.mkResponse code plain_text_headers [http.Line (http.StatusText code)].

(** The text of every statement that went over the connection, be it
    prepared or run. *)
Definition statement_text (c : sql.call) : string :=
  match c with
  | sql.Prepared q => q
  | sql.Ran q _ => q
  end.

Definition texts (db : sql.DB) : list string :=
  List.map statement_text (sql.wire db).

(** No row of the table has this isbn. *)
Definition absent (isbn : string) (db : sql.DB) : bool :=
  negb (List.existsb (fun bk => sql.bpchar_eq (Isbn bk) isbn) (sql.books db)).

(** A JSON value of the Book shape: null, or an object in which every
    member named like a field of Book (up to case) holds null or a
    value of that field's type, a number for Price being one that fits
    a float32.  Members with other names do not matter. *)
Definition member_fits (m : string * json.value) : bool :=
  match json.lookup_field m.1 with
  | None => true
  | Some f => isOk (json.store f m.2 zeroBook)
  end.

Definition book_shaped (v : json.value) : bool :=
  match v with
  | json.Null => true
  | json.Object members => List.forallb member_fits members
  | _ => false
  end.

Definition is_null (v : json.value) : bool :=
  match v with json.Null => true | _ => false end.

Definition field_eqb (f g : json.field) : bool :=
  match f, g with
  | json.FIsbn, json.FIsbn | json.FTitle, json.FTitle
  | json.FAuthor, json.FAuthor | json.FPrice, json.FPrice => true
  | _, _ => false
  end.

(** Field [f] is named, with a value other than null, by some member. *)
Definition sets_field (f : json.field) (v : json.value) : bool :=
  match v with
  | json.Object members =>
      List.existsb
        (fun m => match json.lookup_field m.1 with
                  | Some g => field_eqb f g && negb (is_null m.2)
                  | None => false
                  end) members
  | _ => false
  end.

(** The value of a field, as the parameter it is bound to in SQL. *)
Definition field_of (f : json.field) (bk : Book) : sql.value :=
  match f with
  | json.FIsbn => sql.VString (Isbn bk)
  | json.FTitle => sql.VString (Title bk)
  | json.FAuthor => sql.VString (Author bk)
  | json.FPrice => sql.VFloat (Price bk)
  end.

(** ** Sample inputs *)

(** A database that does not answer, and one that does; both with an
    empty table whose columns store every row as it is. *)
Definition unreachable_db : sql.DB := sql.mkDB false [] Some [].
Definition empty_db : sql.DB := sql.mkDB true [] Some [].

Definition emma : Book := mkBook "978-1503261969" "Emma" "Jayne Austen" 1092028989.

Definition plain_request : http.Request := http.mkRequest (json.Malformed "EOF") ∅.

Definition post_request (v : json.value) : http.Request :=
  http.mkRequest (json.Value v) ∅.

Definition isbn_request (isbn : string) : http.Request :=
  http.mkRequest (json.Malformed "EOF") {["isbn" := isbn]}.

(** ** The statements of the repository *)

Definition select_all : string := "SELECT * FROM books".
Definition select_by_isbn : string := "SELECT * FROM books WHERE isbn=$1;".
Definition insert_book : string :=
  "INSERT INTO books (isbn, title, author, price) VALUES ($1, $2, $3, $4);".

(** What a method that prepares [q] and runs it with [args] adds to the
    conversation: the run follows only if the prepare succeeded, that
    is if the server answers. *)
Definition conversation (db : sql.DB) (q : string) (args : list sql.value) : list sql.call :=
  sql.Prepared q :: (if sql.online db then [sql.Ran q args] else []).

Definition book_args (bk : Book) : list sql.value :=
  List.map (fun f => field_of f bk) json.fields.

(** The database after a call of All that reached the server. *)
Definition after_All (db : sql.DB) : sql.DB :=
  sql.record (sql.Ran select_all []) (sql.record (sql.Prepared select_all) db).

(** ** Sample start-up worlds *)

Definition sample_secret : vault.KVSecret :=
  vault.mkKVSecret {[ "DB_USER" := "vaultuser"; "DB_PASS" := "vaultpass" ]}.

Definition sample_environ : gmap string string :=
  {[ "DB_USER" := "envuser"; "DB_HOST" := "db"; "VAULT_ROLE" := "bookstore";
     "VAULT_KV_MOUNT" := "kv"; "VAULT_BOOKSTORE_ENV" := "prod";
     "KUBE_SVC_ACCT_TOKEN" := "/var/run/secrets/kubernetes.io/serviceaccount/token" ]}.

(** The auth method can be built when a role is named and the token
    path names a file: an empty role is refused, and so is the empty
    path, which no file has. *)
Definition token_file (role path : string) : result string :=
  if String.eqb role "" then Err "no role name was provided"
  else if String.eqb path ""
       then Err "error with login option: unable to read service account token from file"
       else Ok "jwt".

(** A store that logs the role in and serves the secret to anyone. *)
Definition open_store : vault.Store :=
  vault.mkStore None token_file (fun _ _ => Ok (Some "s.token"))
    (fun _ _ _ => Ok sample_secret).

(** A store whose Kubernetes login is refused but which serves the
    secret to a client without a token. *)
Definition no_login_store : vault.Store :=
  vault.mkStore None token_file (fun _ _ => Err "permission denied")
    (fun tok _ _ => match tok with
                    | None => Ok sample_secret
                    | Some _ => Err "unexpected token"
                    end).

(** A store that logs the role in and then refuses the read. *)
Definition no_read_store : vault.Store :=
  vault.mkStore None token_file (fun _ _ => Ok (Some "s.token"))
    (fun _ _ _ => Err "secret not found").

Definition sample_world : World := mkWorld sample_environ open_store.
Definition no_login_world : World := mkWorld sample_environ no_login_store.
Definition no_read_world : World := mkWorld sample_environ no_read_store.

(** [conf] as init leaves it in the sample world. *)
Definition sample_conf : viper.Viper :=
  viper.mkViper true (viper.insensitiviseMap (vault.Data sample_secret) ∪ ∅).

(** A merge that reports an error. *)
Definition failing_merge (cfg : gmap string string) (v : viper.Viper)
  : viper.Viper * option error :=
  (v, Some "malformed secret").

Definition login_failed_line (e : error) : string := "vault login failed: %w " +:+ e.

(** The line init logs for the outcome of the login. *)
Definition login_log (err : option error) : list string :=
  match err with
  | Some e => [login_failed_line e]
  | None => []
  end.

(** * The test double of the handlers' test file

    mockBookModel has no state: All returns two fixed books, Get a fixed
    book whatever the isbn, Create nothing but a nil error. *)

Definition timeMachine : Book :=
  mkBook "978-1505255607" "The Time Machine" "H. G. Wells" 1086303764.

Definition mockBookModel : BookStore unit :=
  mkBookStore
    (fun s => ((append (append None emma) timeMachine, None), s))
    (fun isbn s => ((Some timeMachine, None), s))
    (fun book s => ((book, None), s)).

(** * Vocabulary of the further properties *)

(** No two rows of a table have the same isbn, as char(n) compares. *)
Fixpoint unique_isbn (l : list Book) : bool :=
  match l with
  | [] => true
  | bk :: rest =>
      negb (List.existsb (fun x => sql.bpchar_eq (Isbn x) (Isbn bk)) rest)
      && unique_isbn rest
  end.

Definition all_finite (l : list Book) : bool :=
  List.forallb (fun bk => float32_finite (Price bk)) l.

(** The two probe routes. *)
Definition is_probe (route : Route) : bool :=
  match route with
  | GET_healthz | GET_readyz => true
  | _ => false
  end.

(** A member whose key names a field of Book. *)
Definition known_member (m : string * json.value) : bool :=
  match json.lookup_field m.1 with
  | Some _ => true
  | None => false
  end.

(** [conf] between AutomaticEnv and the merge. *)
Definition boot_conf : viper.Viper := viper.AutomaticEnv viper.New.

(** The client vault.NewClient returns when it returns one. *)
Definition first_client (w : World) : vault.Client :=
  let tok := default "" (environ w !! "VAULT_TOKEN") in
  vault.mkClient (if String.eqb tok "" then None else Some tok).

(** The token the secret is read with: the client's after the login
    attempt. *)
Definition fetch_token (w : World) : option string :=
  vault.token (loginVaultKubernetes w boot_conf (first_client w)).2.

(** The read of the secret as init makes it. *)
Definition fetch (w : World) : result vault.KVSecret :=
  vault.KVv2_Get (store w) (fetch_token w)
    (viper.GetString (environ w) boot_conf VAULT_KV_MOUNT)
    (viper.GetString (environ w) boot_conf VAULT_BOOKSTORE_ENV).

(** The three strings of a Book are well-formed UTF-8. *)
Definition utf8_book (bk : Book) : bool :=
  strings.utf8_valid (Isbn bk) && strings.utf8_valid (Title bk)
  && strings.utf8_valid (Author bk).

(** Every key of a secret is ASCII. *)
Definition ascii_keys (secret : vault.KVSecret) : Prop :=
  forall k, is_Some (vault.Data secret !! k) -> strings.is_ascii k = true.

(** A table with one row whose price is a NaN. *)
Definition nan_book : Book := mkBook "978-0000000000" "X" "Y" 2143289344.
Definition nan_db : sql.DB := sql.mkDB true [nan_book] Some [].

Definition emma_db : sql.DB := sql.mkDB true [emma; timeMachine] Some [].

(** What a handler that only encodes sends: the document with status
    200, or status 200 and nothing when the encoder refused the value. *)
Definition encoded (v : result json.value) : http.Response :=
  match v with
  | Ok doc => http.mkResponse 200 ∅ [http.Doc doc]
  | Err _ => http.mkResponse 200 ∅ []
  end.

(** An Env that counts the calls made to it, on top of any Env. *)
Definition counting {T : Type} (env : Env T) : Env (T * nat) :=
  mkEnv
    (mkAppChecker
       (fun st => let '(e, t) := CheckDBConn (app env) st.1 in (e, (t, (st.2 + 1)%nat))))
    (mkBookStore
       (fun st => let '(a, t) := All (books env) st.1 in (a, (t, (st.2 + 1)%nat)))
       (fun isbn st => let '(a, t) := Get (books env) isbn st.1 in (a, (t, (st.2 + 1)%nat)))
       (fun bk st => let '(a, t) := Create (books env) bk st.1 in (a, (t, (st.2 + 1)%nat)))).

(** The calls a request is expected to make: one, except none for a
    POST /books whose body does not decode. *)
Definition calls_made (route : Route) (r : http.Request) : nat :=
  match route with
  | POST_books =>
      match (json.Decode (http.ReqBody r) zeroBook).2 with
      | Some _ => 0%nat
      | None => 1%nat
      end
  | _ => 1%nat
  end.

(** * Properties *)

Ltac run_handler :=
  unfold serve, router, appHealth, appReady, booksIndex, bookByISBN, createBook,
    bind, call, respond, log_Print, ret, Encode; cbn.

(** ** The health probes *)

Lemma appReady_is_appHealth {S} (env : Env S) : appReady env = appHealth env.
Proof. reflexivity. Qed.

Lemma appHealth_success {S} (env : Env S) r s s1 :
  CheckDBConn (app env) s = (None, s1) ->
  serve (appHealth env) r s
  = (http.mkResponse 200 plain_text_headers [http.Line "OK"], [], s1).
Proof. intros H. run_handler. rewrite H. reflexivity. Qed.

(** With the check failing, the status sent is 500 and the handler goes
    on to Respond: its WriteHeader(200) is ignored, its line is written. *)
Lemma appHealth_failure {S} (env : Env S) r s e s1 :
  CheckDBConn (app env) s = (Some e, s1) ->
  serve (appHealth env) r s
  = (http.mkResponse 500 plain_text_headers
       [http.Line "Internal Server Error"; http.Line "OK"], [e], s1).
Proof. intros H. run_handler. rewrite H. reflexivity. Qed.

Lemma CheckDBConn_offline db :
  sql.online db = false ->
  App.CheckDBConn db = (Some sql.ErrConn, sql.record (sql.Ran "SELECT 1" []) db).
Proof. intros H. unfold App.CheckDBConn, sql.Query, sql.run. rewrite H. reflexivity. Qed.

Lemma CheckDBConn_online db :
  sql.online db = true ->
  App.CheckDBConn db = (None, sql.record (sql.Ran "SELECT 1" []) db).
Proof.
  intros H. unfold App.CheckDBConn, sql.Query, sql.run. rewrite H.
  destruct db; reflexivity.
Qed.

(** C2 (the code at the failing input).  GET /healthz and GET /readyz
    with the database unreachable: the status is 500, but the body is
    the error text followed by the line OK, because the error branch of
    appHealth and appReady does not return before Respond.  The two
    routes do answer alike. *)
Theorem C2_probe_failure_body :
  let health := serve (router mainEnv GET_healthz) plain_request unreachable_db in
  let ready := serve (router mainEnv GET_readyz) plain_request unreachable_db in
  http.StatusCode health.1.1 = 500 /\
  http.Body health.1.1 = [http.Line "Internal Server Error"; http.Line "OK"] /\
  http.Body health.1.1 <> http.Body (error_response 500) /\
  ready = health.
Proof.
  cbn zeta.
  change (router mainEnv GET_readyz) with (router mainEnv GET_healthz).
  unfold router.
  rewrite (appHealth_failure mainEnv plain_request unreachable_db sql.ErrConn
             (sql.record (sql.Ran "SELECT 1" []) unreachable_db))
    by (apply CheckDBConn_offline; reflexivity).
  cbn. repeat split; congruence.
Qed.

(** ** GET /books *)

Lemma ScanBook_row_of bk : sql.ScanBook (sql.row_of bk) = Ok bk.
Proof. destruct bk; reflexivity. Qed.

(** Scanning the rows of a result set appends them in order. *)
Lemma scan_rows_row_of l acc :
  BookModel.scan_rows (List.map sql.row_of l) acc
  = (match l with [] => acc | _ => Some (default [] acc ++ l) end, None).
Proof.
  revert acc. induction l as [|bk l IH]; intros acc; [reflexivity|].
  cbn [List.map BookModel.scan_rows]. rewrite ScanBook_row_of, IH.
  unfold append. cbn. destruct l; [reflexivity|].
  by rewrite <- app_assoc.
Qed.

Lemma All_online db :
  sql.online db = true ->
  BookModel.All db
  = ((match sql.books db with [] => None | l => Some l end, None), after_All db).
Proof.
  intros H. unfold BookModel.All, sql.Prepare. rewrite H. cbn.
  unfold sql.Stmt_Query, sql.run. cbn. rewrite H. cbn.
  rewrite scan_rows_row_of. destruct db as [o l c w]. cbn in *. subst o.
  by destruct l.
Qed.

Lemma marshalItems_finite l :
  List.forallb (fun bk => float32_finite (Price bk)) l = true ->
  json.marshalItems l = Ok (List.map json.book_object l).
Proof.
  induction l as [|bk l IH]; [reflexivity|].
  cbn. intros [Hb Hl]%andb_prop. unfold json.marshalBook. rewrite Hb.
  by rewrite IH.
Qed.

(** With at least one row, and prices that are numbers, the body is the
    array of the rows in table order. *)
Lemma booksIndex_rows db r :
  sql.online db = true ->
  sql.books db <> [] ->
  List.forallb (fun bk => float32_finite (Price bk)) (sql.books db) = true ->
  serve (booksIndex mainEnv) r db
  = (http.mkResponse 200 ∅
       [http.Doc (json.Array (List.map json.book_object (sql.books db)))],
     [], after_All db).
Proof.
  intros Hon Hne Hfin. run_handler. rewrite (All_online db Hon).
  destruct (sql.books db) as [|bk l] eqn:E; [done|].
  cbn [json.marshalBooks]. rewrite (marshalItems_finite _ Hfin).
  reflexivity.
Qed.

(** C3 (the code at the failing input).  GET /books on a reachable
    database whose table has no rows: All succeeds and returns the nil
    slice it declared, which is encoded as null, not as an empty array. *)
Theorem C3_empty_table_body :
  let res := serve (router mainEnv GET_books) plain_request empty_db in
  (BookModel.All empty_db).1 = (None, None) /\
  http.StatusCode res.1.1 = 200 /\
  http.Body res.1.1 = [http.Doc json.Null] /\
  http.Body res.1.1 <> [http.Doc (json.Array [])].
Proof. cbn. repeat split; congruence. Qed.

(** ** POST /books *)

Lemma createBook_decode_error {S} (env : Env S) (r : http.Request) (s : S) (e : error) :
  (json.Decode (http.ReqBody r) zeroBook).2 = Some e ->
  serve (createBook env) r s = (error_response 400, [e], s).
Proof.
  intros H. run_handler.
  destruct (json.Decode (http.ReqBody r) zeroBook) as [bk [e1|]];
    cbn in H; [|discriminate]. by inversion H.
Qed.

Lemma createBook_decoded {S} (env : Env S) (r : http.Request) (s : S) (bk : Book) :
  json.Decode (http.ReqBody r) zeroBook = (bk, None) ->
  (serve (createBook env) r s).2 = (Create (books env) bk s).2.
Proof.
  intros H. unfold serve, createBook. rewrite H. unfold bind, call.
  cbn [backend]. destruct (Create (books env) bk s) as [[bk1 [e|]] s1];
    [reflexivity|].
  unfold Encode. by destruct (json.marshalBook bk1).
Qed.

(** C6.  When the request body cannot be decoded into a Book, POST /books
    answers 400 with the status text, logs the error, and leaves the
    state behind Env as it was, for every implementation of Env: Create
    is not called.  With the Env of main, nothing goes over the database
    connection. *)
Theorem C6_undecodable_body {S} (env : Env S) (r : http.Request) (s : S) (e : error) :
  (json.Decode (http.ReqBody r) zeroBook).2 = Some e ->
  serve (createBook env) r s = (error_response 400, [e], s) /\
  forall db, sql.wire (serve (router mainEnv POST_books) r db).2 = sql.wire db.
Proof.
  intros H. split; [|intros db; unfold router];
    by rewrite (createBook_decode_error _ _ _ _ H).
Qed.

Lemma C6_undecodable_body_witness :
  serve (createBook mainEnv) plain_request empty_db
  = (error_response 400, ["EOF"], empty_db) /\
  forall db, sql.wire (serve (router mainEnv POST_books) plain_request db).2 = sql.wire db.
Proof. apply (C6_undecodable_body mainEnv plain_request empty_db "EOF"). reflexivity. Defined.

(** *** What decodes *)

Lemma store_isOk_any f v bk bk' : isOk (json.store f v bk) = isOk (json.store f v bk').
Proof. destruct f, v; cbn; try reflexivity; by destruct (float32_finite _). Qed.

(** The decoder reports an error exactly when an error was saved before
    or a member does not fit. *)
Lemma object_error ms : forall bk saved,
  (json.object ms bk saved).2 = None <->
  saved = None /\ List.forallb member_fits ms = true.
Proof.
  induction ms as [|[key v] ms IH]; intros bk saved; cbn [json.object List.forallb].
  - cbn. tauto.
  - unfold member_fits at 1. cbn [fst snd].
    destruct (json.lookup_field key) as [f|]; [|by rewrite IH].
    rewrite (store_isOk_any f v zeroBook bk).
    destruct (json.store f v bk) as [bk1|e]; cbn [isOk]; rewrite IH; cbn.
    + tauto.
    + split; [intros [[=] _]|intros [_ [=]]].
Qed.

Lemma unmarshal_error v bk :
  (json.unmarshalBook v bk).2 = None <-> book_shaped v = true.
Proof.
  destruct v; cbn; try (split; [discriminate|discriminate]); try tauto.
  rewrite object_error. tauto.
Qed.

Lemma store_other_field f g v bk bk1 :
  json.store g v bk = Ok bk1 ->
  field_eqb f g && negb (is_null v) = false ->
  field_of f bk1 = field_of f bk.
Proof.
  destruct g, v; cbn; try discriminate;
    try (destruct (float32_finite _); [|discriminate]);
    intros [= <-]; destruct f; cbn; intros; (reflexivity || discriminate).
Qed.

Lemma object_unset f ms : forall bk saved,
  sets_field f (json.Object ms) = false ->
  field_of f (json.object ms bk saved).1 = field_of f bk.
Proof.
  induction ms as [|[key v] ms IH]; intros bk saved; cbn [sets_field List.existsb json.object];
    [reflexivity|].
  cbn [fst snd]. destruct (json.lookup_field key) as [g|]; cbn [orb].
  - intros [Hg Hms]%orb_false_elim.
    destruct (json.store g v bk) as [bk1|e] eqn:E.
    + rewrite (IH bk1 saved Hms). eapply store_other_field; eauto.
    + apply (IH _ _ Hms).
  - intros Hms. apply (IH _ _ Hms).
Qed.

Lemma store_finite f v bk bk1 :
  json.store f v bk = Ok bk1 ->
  float32_finite (Price bk) = true -> float32_finite (Price bk1) = true.
Proof.
  intros H Hfin.
  destruct f; destruct v as [| |x| | |]; cbn [json.store] in H; try discriminate H;
    try (injection H as <-; exact Hfin).
  destruct (float32_finite x) eqn:E; [|discriminate H].
  injection H as <-. exact E.
Qed.

Lemma object_finite ms : forall bk saved,
  float32_finite (Price bk) = true ->
  float32_finite (Price (json.object ms bk saved).1) = true.
Proof.
  induction ms as [|[key v] ms IH]; intros bk saved Hbk; cbn [json.object]; [done|].
  destruct (json.lookup_field key) as [f|]; [|by apply IH].
  destruct (json.store f v bk) as [bk1|e] eqn:E; apply IH; [|done].
  eapply store_finite; eauto.
Qed.

(** A decoded price is a number: the decoder takes no infinity, and the
    zero value is finite. *)
Lemma Decode_finite body bk :
  (json.Decode body zeroBook).1 = bk -> float32_finite (Price bk) = true.
Proof.
  intros <-. destruct body as [e|v]; [reflexivity|].
  destruct v; try reflexivity. apply object_finite. reflexivity.
Qed.

(** ** The repository on the wire *)

Lemma All_wire db :
  sql.wire (BookModel.All db).2 = sql.wire db ++ conversation db select_all [].
Proof.
  unfold BookModel.All, sql.Prepare, sql.Stmt_Query, sql.run, conversation.
  destruct (sql.online db) eqn:E; cbn; rewrite ?E; cbn; [|reflexivity].
  by rewrite <- app_assoc.
Qed.

Lemma Get_wire isbn db :
  sql.wire (BookModel.Get isbn db).2
  = sql.wire db ++ conversation db select_by_isbn [sql.VString isbn].
Proof.
  unfold BookModel.Get, sql.Prepare, sql.Stmt_QueryRow_ScanBook, sql.Stmt_Query,
    sql.run, conversation.
  destruct (sql.online db) eqn:E; cbn; rewrite ?E; cbn; [|reflexivity].
  repeat (case_match; cbn); simplify_eq; cbn; by rewrite <- app_assoc.
Qed.

Lemma Create_wire bk db :
  sql.wire (BookModel.Create bk db).2
  = sql.wire db ++ conversation db insert_book (book_args bk).
Proof.
  unfold BookModel.Create, sql.Prepare, sql.Stmt_Exec, sql.run, conversation.
  destruct (sql.online db) eqn:E; cbn; rewrite ?E; cbn; [|reflexivity].
  repeat (case_match; cbn); simplify_eq; cbn; by rewrite <- app_assoc.
Qed.

(** Create only reads the Book behind its pointer. *)
Lemma Create_keeps_book bk db : (BookModel.Create bk db).1.1 = bk.
Proof.
  unfold BookModel.Create.
  destruct (sql.Prepare _ db) as [[stmt|e] db1]; [|reflexivity].
  by destruct (sql.Stmt_Exec _ _ db1) as [[rows|e] db2].
Qed.

(** C8.  Whatever the isbn and whatever the Book, the statement texts
    that All, Get and Create hand to the connection are the three fixed
    strings: each method adds to the conversation one Prepare of its
    constant and, if that succeeded, one run of the same constant, with
    the caller's values only among the bound parameters.  So two calls
    that differ in their input send the same texts. *)
Theorem C8_statement_texts_fixed (db : sql.DB) :
  sql.wire (BookModel.All db).2 = sql.wire db ++ conversation db select_all [] /\
  (forall isbn,
     sql.wire (BookModel.Get isbn db).2
     = sql.wire db ++ conversation db select_by_isbn [sql.VString isbn]) /\
  (forall bk,
     sql.wire (BookModel.Create bk db).2
     = sql.wire db ++ conversation db insert_book (book_args bk)) /\
  (forall isbn1 isbn2,
     texts (BookModel.Get isbn1 db).2 = texts (BookModel.Get isbn2 db).2) /\
  (forall bk1 bk2,
     texts (BookModel.Create bk1 db).2 = texts (BookModel.Create bk2 db).2).
Proof.
  split; [apply All_wire|]. split; [intros; apply Get_wire|].
  split; [intros; apply Create_wire|].
  unfold texts. split; intros a b.
  - rewrite !Get_wire, !map_app. unfold conversation. by destruct (sql.online db).
  - rewrite !Create_wire, !map_app. unfold conversation. by destruct (sql.online db).
Qed.

(** ** Create and Get *)

Lemma bpchar_eq_refl s : sql.bpchar_eq s s = true.
Proof. unfold sql.bpchar_eq. apply String.eqb_refl. Qed.

(** What a successful Create leaves: the server answered, the columns
    took the row, no row had its isbn, and the row is at the end of the
    table. *)
Lemma Create_success bk db bk1 db1 :
  BookModel.Create bk db = ((bk1, None), db1) ->
  sql.online db = true /\
  exists stored,
    sql.columns db bk = Some stored /\
    List.existsb (fun b => sql.bpchar_eq (Isbn b) (Isbn stored)) (sql.books db) = false /\
    db1 = sql.mkDB true (sql.books db ++ [stored]) (sql.columns db)
            (sql.wire db ++ conversation db insert_book (book_args bk)).
Proof.
  unfold BookModel.Create, sql.Prepare, sql.Stmt_Exec, sql.run, conversation.
  destruct (sql.online db) eqn:E; cbn; rewrite ?E; cbn; [|discriminate].
  destruct bk as [i t a p]; cbn.
  destruct (sql.columns db _) as [stored|] eqn:Ec; cbn; [|discriminate].
  destruct (List.existsb _ _) eqn:Ex; cbn; [discriminate|].
  intros [= <- <-]. split; [reflexivity|]. exists stored.
  rewrite <- app_assoc. auto.
Qed.

Lemma filter_none {A} (p : A -> bool) l : List.existsb p l = false -> List.filter p l = [].
Proof.
  induction l as [|x l IH]; [reflexivity|]. cbn.
  intros [Hx Hl]%orb_false_elim. rewrite Hx. auto.
Qed.

(** Get on a reachable database: the first row whose isbn matches. *)
Lemma Get_online isbn db :
  sql.online db = true ->
  (BookModel.Get isbn db).1
  = match List.filter (fun bk => sql.bpchar_eq (Isbn bk) isbn) (sql.books db) with
    | [] => (None, Some sql.ErrNoRows)
    | bk :: _ => (Some bk, None)
    end.
Proof.
  intros E.
  unfold BookModel.Get, sql.Prepare, sql.Stmt_QueryRow_ScanBook, sql.Stmt_Query, sql.run.
  rewrite E; cbn; rewrite E; cbn.
  destruct (List.filter _ _) as [|bk l]; cbn; [reflexivity|].
  by destruct bk.
Qed.

Lemma Get_offline isbn db :
  sql.online db = false -> (BookModel.Get isbn db).1 = (None, Some sql.ErrConn).
Proof.
  intros E. unfold BookModel.Get, sql.Prepare. by rewrite E.
Qed.

(** Create succeeds on a database that answers when the columns take
    the row and no row has its isbn. *)
Lemma Create_fresh bk db stored :
  sql.online db = true ->
  sql.columns db bk = Some stored ->
  List.existsb (fun b => sql.bpchar_eq (Isbn b) (Isbn stored)) (sql.books db) = false ->
  (BookModel.Create bk db).1.2 = None.
Proof.
  intros Hon Hcol Hfresh.
  unfold BookModel.Create, sql.Prepare, sql.Stmt_Exec, sql.run.
  rewrite Hon; cbn; rewrite Hon; cbn.
  destruct bk as [i t a p]; cbn in *. rewrite Hcol. cbn. by rewrite Hfresh.
Qed.

(** C4.  Round trip.  Take a Book that the table's column types store
    as it is (a Book valid for the schema).  On a database that answers
    and has no row with its isbn, Create succeeds on it; and whenever
    Create returns no error, Get with its isbn on the database Create
    left returns that Book, all four fields equal, and no error. *)
Theorem C4_create_then_get (db : sql.DB) (bk : Book) :
  sql.columns db bk = Some bk ->
  (sql.online db = true -> absent (Isbn bk) db = true ->
   (BookModel.Create bk db).1 = (bk, None)) /\
  ((BookModel.Create bk db).1.2 = None ->
   (BookModel.Get (Isbn bk) (BookModel.Create bk db).2).1 = (Some bk, None)).
Proof.
  intros Hvalid. split.
  - intros Hon Habs. unfold absent in Habs. apply negb_true_iff in Habs.
    pose proof (Create_fresh bk db bk Hon Hvalid Habs) as Hok.
    pose proof (Create_keeps_book bk db) as Hkeep.
    destruct (BookModel.Create bk db) as [[bk1 err] db1]. cbn in *. congruence.
  - intros Hok.
    destruct (BookModel.Create bk db) as [[bk1 err] db1] eqn:Hcreate.
    cbn in Hok. subst err. cbn [snd].
    destruct (Create_success _ _ _ _ Hcreate) as (Hon & stored & Hc & Hfresh & ->).
    rewrite Hvalid in Hc. injection Hc as <-.
    rewrite Get_online by reflexivity. cbn [sql.books].
    rewrite List.filter_app, (filter_none _ _ Hfresh). cbn.
    by rewrite bpchar_eq_refl.
Qed.

Lemma C4_create_then_get_witness :
  (BookModel.Create emma empty_db).1 = (emma, None) /\
  (BookModel.Get (Isbn emma) (BookModel.Create emma empty_db).2).1 = (Some emma, None).
Proof.
  destruct (C4_create_then_get empty_db emma eq_refl) as [Hcreate Hget].
  split; [apply Hcreate; reflexivity | apply Hget; reflexivity].
Defined.

(** ** GET /books/{isbn} *)

Lemma bookByISBN_error r isbn db e :
  http.Vars r !! "isbn" = Some isbn ->
  (BookModel.Get isbn db).1 = (None, Some e) ->
  (serve (bookByISBN mainEnv) r db).1 = (error_response 500, [e]).
Proof.
  intros Hv Hg. run_handler. rewrite Hv. cbn.
  destruct (BookModel.Get isbn db) as [res db1]. cbn in Hg. by subst res.
Qed.

(** C5.  When no row has the isbn, Get fails (with ErrNoRows if the
    server answers) and GET /books/{isbn} responds 500 with the status
    text as body, never 200 and never a null or empty body; the response
    is the one sent when the database cannot be reached at all. *)
Theorem C5_absent_isbn (db : sql.DB) (r : http.Request) (isbn : string) :
  http.Vars r !! "isbn" = Some isbn ->
  absent isbn db = true ->
  let e := if sql.online db then sql.ErrNoRows else sql.ErrConn in
  (BookModel.Get isbn db).1 = (None, Some e) /\
  (serve (router mainEnv GET_books_isbn) r db).1 = (error_response 500, [e]) /\
  (serve (router mainEnv GET_books_isbn) r db).1.1
  = (serve (router mainEnv GET_books_isbn) r
       (sql.mkDB false (sql.books db) (sql.columns db) (sql.wire db))).1.1.
Proof.
  intros Hv Habs e.
  assert (Hget : (BookModel.Get isbn db).1 = (None, Some e)).
  { subst e. destruct (sql.online db) eqn:E.
    - rewrite Get_online by done. rewrite filter_none; [done|].
      unfold absent in Habs. by destruct (List.existsb _ _).
    - by apply Get_offline. }
  split; [done|]. unfold router.
  rewrite (bookByISBN_error r isbn db e Hv Hget).
  split; [done|].
  set (off := sql.mkDB false (sql.books db) (sql.columns db) (sql.wire db)).
  by rewrite (bookByISBN_error r isbn off sql.ErrConn Hv (Get_offline isbn off eq_refl)).
Qed.

Lemma C5_absent_isbn_witness :
  (BookModel.Get "978-0000000000" empty_db).1 = (None, Some sql.ErrNoRows) /\
  (serve (router mainEnv GET_books_isbn) (isbn_request "978-0000000000") empty_db).1
  = (error_response 500, [sql.ErrNoRows]) /\
  (serve (router mainEnv GET_books_isbn) (isbn_request "978-0000000000") empty_db).1.1
  = (serve (router mainEnv GET_books_isbn) (isbn_request "978-0000000000")
       unreachable_db).1.1.
Proof.
  apply (C5_absent_isbn empty_db (isbn_request "978-0000000000") "978-0000000000");
    reflexivity.
Defined.

(** ** POST /books, continued *)

(** C10.  Create leaves the Book behind its pointer as it was, for every
    Book and every database; so when the body decodes to a Book and
    Create succeeds, POST /books answers 200 with that Book as a JSON
    object: the ISBN, Title, Author and Price decoded from the request,
    nothing added and nothing changed. *)
Theorem C10_create_echo (r : http.Request) (db : sql.DB) (bk : Book) :
  json.Decode (http.ReqBody r) zeroBook = (bk, None) ->
  (BookModel.Create bk db).1.2 = None ->
  (forall bk0 db0, (BookModel.Create bk0 db0).1.1 = bk0) /\
  (serve (router mainEnv POST_books) r db).1
  = (http.mkResponse 200 ∅ [http.Doc (json.book_object bk)], []).
Proof.
  intros Hdec Hok. split; [apply Create_keeps_book|].
  pose proof (Create_keeps_book bk db) as Hkeep.
  pose proof (Decode_finite (http.ReqBody r) bk) as Hfin. rewrite Hdec in Hfin.
  specialize (Hfin eq_refl).
  unfold router, serve, createBook. rewrite Hdec. unfold bind, call. cbn [backend books Create mainEnv].
  destruct (BookModel.Create bk db) as [[bk1 err] db1]. cbn in Hok, Hkeep. subst err bk1.
  unfold Encode, json.marshalBook. rewrite Hfin. reflexivity.
Qed.

Lemma C10_create_echo_witness :
  (forall bk0 db0, (BookModel.Create bk0 db0).1.1 = bk0) /\
  (serve (router mainEnv POST_books) (post_request (json.book_object emma)) empty_db).1
  = (http.mkResponse 200 ∅ [http.Doc (json.book_object emma)], []).
Proof.
  apply (C10_create_echo (post_request (json.book_object emma)) empty_db emma);
    reflexivity.
Defined.

(** C9 (as stated, at two bodies).  The bodies [] and {"ISBN": 5} are
    valid JSON, yet decoding fails with a type error and POST /books
    answers 400 without a call to the database. *)
Lemma C9_valid_json_rejected :
  let bodies := [json.Array []; json.Object [("ISBN", json.Number 1084227584)]] in
  List.Forall
    (fun v =>
       (json.Decode (json.Value v) zeroBook).2 <> None /\
       (serve (router mainEnv POST_books) (post_request v) empty_db).1.1
       = error_response 400 /\
       (serve (router mainEnv POST_books) (post_request v) empty_db).2 = empty_db)
    bodies.
Proof. cbn zeta. repeat constructor; discriminate. Qed.

(** C9 (amended).  Decoding succeeds exactly on the JSON values of the
    Book shape.  For such a value, the empty object and objects with
    missing or unknown names among them, the fields that no member sets
    keep their zero values and the handler calls Create with the decoded
    Book: the insert is prepared, and run with its four fields.  Every
    other valid JSON value gets 400, the database left alone. *)
Theorem C9_book_shaped_bodies (v : json.value) :
  (book_shaped v = true ->
   exists bk,
     json.Decode (json.Value v) zeroBook = (bk, None) /\
     (forall f, sets_field f v = false -> field_of f bk = field_of f zeroBook) /\
     forall db,
       sql.wire (serve (router mainEnv POST_books) (post_request v) db).2
       = sql.wire db ++ conversation db insert_book (book_args bk)) /\
  (book_shaped v = false ->
   forall db, exists e,
     serve (router mainEnv POST_books) (post_request v) db = (error_response 400, [e], db)).
Proof.
  split; intros Hshape.
  - destruct (json.Decode (json.Value v) zeroBook) as [bk err] eqn:Hdec.
    assert (err = None) as ->.
    { apply (unmarshal_error v zeroBook) in Hshape. cbn in Hdec.
      by rewrite Hdec in Hshape. }
    exists bk. split; [done|]. split.
    + intros f Hf. cbn in Hdec. destruct v; cbn in Hdec; try discriminate.
      * by injection Hdec as <-.
      * rewrite <- (object_unset f members zeroBook None Hf). by rewrite Hdec.
    + intros db. unfold router.
      rewrite (createBook_decoded mainEnv (post_request v) db bk Hdec).
      apply Create_wire.
  - intros db.
    destruct (json.Decode (json.Value v) zeroBook) as [bk [e|]] eqn:Hdec.
    + exists e. apply createBook_decode_error. cbn [post_request http.ReqBody].
      by rewrite Hdec.
    + pose proof (proj1 (unmarshal_error v zeroBook)) as Hu. cbn in Hdec.
      rewrite Hdec in Hu. rewrite (Hu eq_refl) in Hshape. discriminate.
Qed.

Lemma C9_book_shaped_bodies_witness :
  (exists bk,
     json.Decode (json.Value (json.Object [])) zeroBook = (bk, None) /\
     (forall f, sets_field f (json.Object []) = false ->
                field_of f bk = field_of f zeroBook) /\
     forall db,
       sql.wire (serve (router mainEnv POST_books) (post_request (json.Object [])) db).2
       = sql.wire db ++ conversation db insert_book (book_args bk)) /\
  (forall db, exists e,
     serve (router mainEnv POST_books) (post_request (json.Array [])) db
     = (error_response 400, [e], db)).
Proof.
  split.
  - apply (proj1 (C9_book_shaped_bodies (json.Object []))). reflexivity.
  - apply (proj2 (C9_book_shaped_bodies (json.Array []))). reflexivity.
Defined.

(** ** Start-up *)

Lemma getEnv_default environ key :
  default "" (viper.getEnv environ key) = default "" (environ !! key).
Proof.
  unfold viper.getEnv. destruct (environ !! key) as [val|]; [|reflexivity].
  destruct (String.eqb val "") eqn:E; [|reflexivity].
  apply String.eqb_eq in E. by subst val.
Qed.


(** init with its steps named: the client, the login, the read, the
    merge. *)
Lemma init_with_steps merge w :
  init_with merge w
  = match vault.client_error (store w) with
    | Some e => Fatal ["unable to initialize Vault client: " +:+ e]
    | None =>
        let log1 := login_log (loginVaultKubernetes w boot_conf (first_client w)).1 in
        match fetch w with
        | Err e => Fatal (log1 ++ ["unable to read secret: " +:+ e])
        | Ok secret =>
            match merge (vault.Data secret) boot_conf with
            | (_, Some e) => Fatal (log1 ++ ["unable to merge secret: " +:+ e])
            | (conf1, None) => Ready conf1 log1
            end
        end
    end.
Proof.
  unfold init_with, vault.NewClient, fetch, fetch_token.
  destruct (vault.client_error (store w)) as [e|]; [reflexivity|].
  fold (first_client w). fold boot_conf.
  destruct (loginVaultKubernetes w boot_conf (first_client w)) as [[e|] c1]; reflexivity.
Qed.

Lemma insensitivise_sound (m : gmap string string) :
  forall k' v, viper.insensitiviseMap m !! k' = Some v ->
               exists k, strings.ToLower k = k' /\ m !! k = Some v.
Proof.
  unfold viper.insensitiviseMap.
  apply (map_fold_weak_ind
           (fun (acc m : gmap string string) =>
              forall k' v, acc !! k' = Some v ->
                           exists k, strings.ToLower k = k' /\ m !! k = Some v)).
  - intros k' v. by rewrite lookup_empty.
  - intros i x m0 r Hi IH k' v. rewrite lookup_insert. case_decide as Hk.
    + intros [= ->]. exists i. by rewrite lookup_insert_eq.
    + intros (k & Hk' & Hm)%IH. exists k. split; [done|].
      rewrite lookup_insert_ne; [done|]. intros ->. congruence.
Qed.

Lemma insensitivise_complete (m : gmap string string) :
  forall k v, m !! k = Some v -> is_Some (viper.insensitiviseMap m !! strings.ToLower k).
Proof.
  unfold viper.insensitiviseMap.
  apply (map_fold_weak_ind
           (fun (acc m : gmap string string) =>
              forall k v, m !! k = Some v -> is_Some (acc !! strings.ToLower k))).
  - intros k v. by rewrite lookup_empty.
  - intros i x m0 r Hi IH k v. rewrite lookup_insert. case_decide as Hk.
    + subst k. intros _. rewrite lookup_insert_eq. eauto.
    + intros Hm%IH. rewrite lookup_insert. case_decide; eauto.
Qed.

(** The configuration layer after the merge has the value of a key of
    the secret under the lower-cased key, when no other key of the
    secret has the same lower-cased form. *)
Lemma merged_lookup (m : gmap string string) key skey val :
  m !! skey = Some val ->
  strings.ToLower skey = strings.ToLower key ->
  (forall other, is_Some (m !! other) ->
                 strings.ToLower other = strings.ToLower key -> other = skey) ->
  viper.insensitiviseMap m !! strings.ToLower key = Some val.
Proof.
  intros Hs Hlow Huniq.
  destruct (insensitivise_complete _ _ _ Hs) as [val' Hval']. rewrite Hlow in Hval'.
  destruct (insensitivise_sound _ _ _ Hval') as (k & Hk & Hm).
  assert (k = skey) as -> by (apply Huniq; eauto). congruence.
Qed.

(** [conf] when init is done: the environment layer is on, and the
    configuration layer is the lower-cased secret that was read. *)
Lemma init_ready_fetch w conf log :
  init w = Ready conf log ->
  exists secret,
    fetch w = Ok secret /\
    conf = viper.mkViper true (viper.insensitiviseMap (vault.Data secret) ∪ ∅).
Proof.
  unfold init. rewrite init_with_steps.
  destruct (vault.client_error (store w)) as [e|]; [discriminate|]. cbn zeta.
  destruct (fetch w) as [secret|e]; [|discriminate].
  cbn. intros [= <- _]. eauto.
Qed.

(** After init, a plain key the environment leaves unset or empty reads
    as the value the secret has under a key equal to it up to case, when
    the keys of the secret are ASCII and no other of them has that
    lower-cased form. *)
Lemma read_from_secret w secret key skey val :
  viper.plain_key key = true ->
  ascii_keys secret ->
  viper.getEnv (environ w) (strings.ToUpper (strings.ToLower key)) = None ->
  vault.Data secret !! skey = Some val ->
  strings.ToLower skey = strings.ToLower key ->
  (forall other, is_Some (vault.Data secret !! other) ->
                 strings.ToLower other = strings.ToLower key -> other = skey) ->
  viper.GetString (environ w)
    (viper.mkViper true (viper.insensitiviseMap (vault.Data secret) ∪ ∅)) key = val.
Proof.
  intros _ _ Henv Hs Hlow Huniq.
  unfold viper.GetString, viper.find. cbn. rewrite Henv, (right_id_L ∅ (∪)).
  by rewrite (merged_lookup _ key skey val Hs Hlow Huniq).
Qed.

Lemma sample_secret_keys k :
  is_Some (vault.Data sample_secret !! k) -> k = "DB_USER" \/ k = "DB_PASS".
Proof.
  intros [v Hk]. unfold sample_secret in Hk. cbn [vault.Data] in Hk.
  rewrite lookup_insert in Hk. case_decide as E1; [by left|].
  rewrite lookup_singleton in Hk. case_decide as E2; [by right|discriminate].
Qed.

Lemma sample_secret_ascii : ascii_keys sample_secret.
Proof. intros k [-> | ->]%sample_secret_keys; reflexivity. Qed.

(** C1 (as stated, at a sample world).  DB_USER is set in the
    environment and in the secret that init fetches and merges; after
    init, GetString returns the environment's value, not the secret's. *)
Lemma C1_secret_does_not_override :
  init sample_world = Ready sample_conf [] /\
  environ sample_world !! DB_USER = Some "envuser" /\
  vault.Data sample_secret !! DB_USER = Some "vaultuser" /\
  viper.GetString (environ sample_world) sample_conf DB_USER = "envuser" /\
  viper.GetString (environ sample_world) sample_conf DB_USER <> "vaultuser".
Proof.
  split; [reflexivity|].
  assert (H : viper.GetString (environ sample_world) sample_conf DB_USER = "envuser")
    by (vm_compute; reflexivity).
  rewrite H. repeat split; try (vm_compute; reflexivity). discriminate.
Qed.

(** C1 (amended).  After init, a plain key (letters, digits, underscores) that the
    environment sets, under its upper-cased name, to a non-empty value
    reads as the environment's value whatever the secret holds: the
    environment overrides the secret.  The secret that was read, its
    keys being ASCII, answers only for the keys the environment leaves
    unset or empty: such a key that the secret holds, and holds in no
    other spelling, reads as the secret's value. *)
Theorem C1_environment_overrides (w : World) (conf : viper.Viper) (log : list string) :
  init w = Ready conf log ->
  (forall key val,
     viper.plain_key key = true ->
     environ w !! strings.ToUpper (strings.ToLower key) = Some val ->
     val <> "" ->
     viper.GetString (environ w) conf key = val) /\
  (exists secret,
     fetch w = Ok secret /\
     forall key val,
       viper.plain_key key = true ->
       ascii_keys secret ->
       viper.getEnv (environ w) (strings.ToUpper (strings.ToLower key)) = None ->
       vault.Data secret !! key = Some val ->
       (forall other, is_Some (vault.Data secret !! other) ->
                      strings.ToLower other = strings.ToLower key -> other = key) ->
       viper.GetString (environ w) conf key = val).
Proof.
  intros (secret & Hfetch & ->)%init_ready_fetch. split.
  - intros key val _ Henv Hne.
    unfold viper.GetString, viper.find, viper.getEnv. cbn. rewrite Henv.
    destruct (String.eqb val "") eqn:E; [|reflexivity].
    by apply String.eqb_eq in E.
  - exists secret. split; [done|]. intros key val Hplain Hascii Hnone Hs Huniq.
    by apply (read_from_secret w secret key key val).
Qed.

Lemma C1_environment_overrides_witness :
  viper.GetString (environ sample_world) sample_conf DB_USER = "envuser" /\
  viper.GetString (environ sample_world) sample_conf DB_PASS = "vaultpass".
Proof.
  destruct (C1_environment_overrides sample_world sample_conf [] eq_refl)
    as [Henv (secret & Hfetch & Hsecret)].
  split.
  - apply Henv; [vm_compute; reflexivity | vm_compute; reflexivity | discriminate].
  - injection Hfetch as <-.
    apply Hsecret; try (vm_compute; reflexivity); [apply sample_secret_ascii|].
    intros other [-> | ->]%sample_secret_keys Hlow; [|reflexivity].
    vm_compute in Hlow. discriminate.
Defined.

(** C7.  With the Vault client built, start-up treats its three steps
    differently.  A failed Kubernetes login is logged and nothing more:
    the client is left as it was, the secret is fetched with it, and if
    that and the merge succeed the process goes on to serve.  A failed
    fetch of the secret, and a merge that reports an error, each end the
    process with status 1 before main runs, hence before any request is
    served. *)
Theorem C7_startup_errors
    (merge : gmap string string -> viper.Viper -> viper.Viper * option error)
    (w : World) (client : vault.Client) :
  vault.NewClient (environ w) (store w) = Ok client ->
  let conf := viper.AutomaticEnv viper.New in
  let mount := viper.GetString (environ w) conf VAULT_KV_MOUNT in
  let path := viper.GetString (environ w) conf VAULT_BOOKSTORE_ENV in
  let login := loginVaultKubernetes w conf client in
  (forall e, login.1 = Some e ->
     login.2 = client /\
     forall secret conf1,
       vault.KVv2_Get (store w) (vault.token client) mount path = Ok secret ->
       merge (vault.Data secret) conf = (conf1, None) ->
       start_with merge w = Serving (main w conf1) [login_failed_line e]) /\
  (forall e,
     vault.KVv2_Get (store w) (vault.token login.2) mount path = Err e ->
     start_with merge w
     = Exited 1 (login_log login.1 ++ ["unable to read secret: " +:+ e])) /\
  (forall secret conf1 e,
     vault.KVv2_Get (store w) (vault.token login.2) mount path = Ok secret ->
     merge (vault.Data secret) conf = (conf1, Some e) ->
     start_with merge w
     = Exited 1 (login_log login.1 ++ ["unable to merge secret: " +:+ e])).
Proof.
  intros Hclient conf mount path login.
  assert (Hkeep : forall e, login.1 = Some e -> login.2 = client).
  { subst login. unfold loginVaultKubernetes. intros e.
    destruct (vault.NewKubernetesAuth _ _ _) as [jwt|e1]; [|reflexivity].
    destruct (vault.Login _ _ _) as [[tok|]|e1]; [discriminate|reflexivity..]. }
  unfold start_with, init_with. rewrite Hclient.
  fold conf mount path login. destruct login as [err client1] eqn:Hlogin. cbn [fst snd] in *.
  split; [|split].
  - intros e ->. specialize (Hkeep e eq_refl). subst client1. split; [done|].
    intros secret conf1 Hget Hmerge. by rewrite Hget, Hmerge.
  - intros e Hget. rewrite Hget. by destruct err.
  - intros secret conf1 e Hget Hmerge. rewrite Hget, Hmerge. by destruct err.
Qed.

Lemma C7_startup_errors_witness :
  start no_login_world
  = Serving (main no_login_world sample_conf)
      [login_failed_line (Errorf "unable to log in with Kubernetes auth" "permission denied")] /\
  start no_read_world = Exited 1 ["unable to read secret: secret not found"] /\
  start_with failing_merge sample_world = Exited 1 ["unable to merge secret: malformed secret"].
Proof.
  split; [|split].
  - refine (proj2 (proj1 (C7_startup_errors viper.MergeConfigMap no_login_world
                            (vault.mkClient None) eq_refl) _ eq_refl)
              sample_secret sample_conf eq_refl eq_refl).
  - exact (proj1 (proj2 (C7_startup_errors viper.MergeConfigMap no_read_world
                           (vault.mkClient None) eq_refl)) "secret not found" eq_refl).
  - exact (proj2 (proj2 (C7_startup_errors failing_merge sample_world
                           (vault.mkClient None) eq_refl))
             sample_secret (viper.AutomaticEnv viper.New) "malformed secret"
             eq_refl eq_refl).
Defined.

(** * Further properties *)

(** ** The handlers, over every implementation of Env *)

Ltac open_handler :=
  unfold serve, router, appHealth, appReady, booksIndex, bookByISBN, createBook,
    bind, call; cbn [backend writer logged].

(** X1.  Whatever Env holds, a handler answers 200, 400 or 500, and 400
    only on POST /books; and it logs nothing exactly when it answers
    200. *)
Theorem handler_status_and_log {S} (env : Env S) (route : Route)
    (r : http.Request) (s : S) :
  let res := serve (router env route) r s in
  (http.StatusCode res.1.1 = 200 \/ http.StatusCode res.1.1 = 500 \/
   (route = POST_books /\ http.StatusCode res.1.1 = 400)) /\
  (res.1.2 = [] <-> http.StatusCode res.1.1 = 200).
Proof.
  cbn zeta. destruct route; open_handler.
  - destruct (CheckDBConn (app env) s) as [[e|] s1]; cbn; intuition congruence.
  - destruct (CheckDBConn (app env) s) as [[e|] s1]; cbn; intuition congruence.
  - destruct (All (books env) s) as [[bks [e|]] s1]; cbn; [intuition congruence|].
    destruct (json.marshalBooks bks); cbn; intuition congruence.
  - destruct (json.Decode (http.ReqBody r) zeroBook) as [bk [e|]]; cbn;
      [intuition congruence|].
    destruct (Create (books env) bk s) as [[bk1 [e|]] s1]; cbn; [intuition congruence|].
    destruct (json.marshalBook bk1); cbn; intuition congruence.
  - destruct (Get (books env) _ s) as [[[bk|] [e|]] s1]; cbn; try (intuition congruence).
    destruct (json.marshalBook bk); cbn; intuition congruence.
Qed.

(** X2.  On the three book routes, whatever Env holds, a response that
    is not 200 is the bare status text with the plain-text headers: the
    cause of the failure is in the one line logged and nowhere in the
    response. *)
Theorem failure_response_is_generic {S} (env : Env S) (route : Route)
    (r : http.Request) (s : S) :
  is_probe route = false ->
  let res := serve (router env route) r s in
  http.StatusCode res.1.1 <> 200 ->
  res.1.1 = error_response (http.StatusCode res.1.1) /\ length res.1.2 = 1%nat.
Proof.
  intros Hroute. cbn zeta. destruct route; try discriminate; open_handler.
  - destruct (All (books env) s) as [[bks [e|]] s1]; cbn; [done|].
    destruct (json.marshalBooks bks); cbn; done.
  - destruct (json.Decode (http.ReqBody r) zeroBook) as [bk [e|]]; cbn; [done|].
    destruct (Create (books env) bk s) as [[bk1 [e|]] s1]; cbn; [done|].
    destruct (json.marshalBook bk1); cbn; done.
  - destruct (Get (books env) _ s) as [[[bk|] [e|]] s1]; cbn; try done.
    destruct (json.marshalBook bk); cbn; done.
Qed.

Lemma failure_response_is_generic_witness :
  let res := serve (router mainEnv GET_books) plain_request unreachable_db in
  res.1.1 = error_response (http.StatusCode res.1.1) /\ length res.1.2 = 1%nat.
Proof.
  apply (failure_response_is_generic mainEnv GET_books plain_request unreachable_db);
    [reflexivity | discriminate].
Defined.


(** The handlers of the book routes, as one case analysis each. *)
Lemma Encode_serve {S} (v : result json.value) (s : S) :
  (let '(_, c) := Encode v (mkCtx http.NewWriter [] s) in
   (http.finish (writer c), logged c, backend c)) = (encoded v, [], s).
Proof. by destruct v. Qed.

Lemma booksIndex_run {S} (env : Env S) r s :
  serve (booksIndex env) r s
  = match All (books env) s with
    | ((_, Some e), s1) => (error_response 500, [e], s1)
    | ((bks, None), s1) => (encoded (json.marshalBooks bks), [], s1)
    end.
Proof.
  unfold serve, booksIndex, bind, call. cbn [backend].
  destruct (All (books env) s) as [[bks [e|]] s1]; [reflexivity|]. apply Encode_serve.
Qed.

Lemma bookByISBN_run {S} (env : Env S) r s :
  serve (bookByISBN env) r s
  = match Get (books env) (default "" (http.Vars r !! "isbn")) s with
    | ((_, Some e), s1) => (error_response 500, [e], s1)
    | ((Some bk, None), s1) => (encoded (json.marshalBook bk), [], s1)
    | ((None, None), s1) => (encoded (Ok json.Null), [], s1)
    end.
Proof.
  unfold serve, bookByISBN, bind, call. cbn [backend].
  destruct (Get (books env) _ s) as [[[bk|] [e|]] s1]; try reflexivity.
  apply Encode_serve.
Qed.

Lemma createBook_run {S} (env : Env S) r s bk :
  json.Decode (http.ReqBody r) zeroBook = (bk, None) ->
  serve (createBook env) r s
  = match Create (books env) bk s with
    | ((_, Some e), s1) => (error_response 500, [e], s1)
    | ((bk1, None), s1) => (encoded (json.marshalBook bk1), [], s1)
    end.
Proof.
  intros H. unfold serve, createBook. rewrite H. unfold bind, call. cbn [backend].
  destruct (Create (books env) bk s) as [[bk1 [e|]] s1]; [reflexivity|]. apply Encode_serve.
Qed.

Lemma probe_run {S} (env : Env S) r s :
  serve (appHealth env) r s
  = match CheckDBConn (app env) s with
    | (Some e, s1) =>
        (http.mkResponse 500 plain_text_headers
           [http.Line "Internal Server Error"; http.Line "OK"], [e], s1)
    | (None, s1) => (http.mkResponse 200 plain_text_headers [http.Line "OK"], [], s1)
    end.
Proof.
  destruct (CheckDBConn (app env) s) as [[e|] s1] eqn:E.
  - by apply appHealth_failure.
  - by apply appHealth_success.
Qed.

(** ** The repository and the table *)

Lemma All_offline db :
  sql.online db = false ->
  BookModel.All db = ((None, Some sql.ErrConn), sql.record (sql.Prepared select_all) db).
Proof. intros E. unfold BookModel.All, sql.Prepare. by rewrite E. Qed.

Lemma All_frame db :
  sql.books (BookModel.All db).2 = sql.books db /\
  sql.columns (BookModel.All db).2 = sql.columns db /\
  sql.online (BookModel.All db).2 = sql.online db.
Proof.
  destruct (sql.online db) eqn:E.
  - rewrite (All_online db E). cbn. by rewrite E.
  - rewrite (All_offline db E). cbn. by rewrite E.
Qed.

Lemma Get_frame isbn db :
  sql.books (BookModel.Get isbn db).2 = sql.books db /\
  sql.columns (BookModel.Get isbn db).2 = sql.columns db /\
  sql.online (BookModel.Get isbn db).2 = sql.online db.
Proof.
  unfold BookModel.Get, sql.Prepare, sql.Stmt_QueryRow_ScanBook, sql.Stmt_Query, sql.run.
  destruct (sql.online db) eqn:E; cbn; rewrite ?E; cbn; [|done].
  repeat (case_match; cbn); simplify_eq; cbn; done.
Qed.

Lemma CheckDBConn_frame db :
  sql.books (App.CheckDBConn db).2 = sql.books db /\
  sql.columns (App.CheckDBConn db).2 = sql.columns db /\
  sql.online (App.CheckDBConn db).2 = sql.online db.
Proof.
  destruct (sql.online db) eqn:E.
  - rewrite (CheckDBConn_online db E). cbn. by rewrite E.
  - rewrite (CheckDBConn_offline db E). cbn. by rewrite E.
Qed.

(** What Create does to the table, in every case. *)
Lemma Create_cases bk db :
  sql.columns (BookModel.Create bk db).2 = sql.columns db /\
  sql.online (BookModel.Create bk db).2 = sql.online db /\
  ((exists e, (BookModel.Create bk db).1.2 = Some e /\
              sql.books (BookModel.Create bk db).2 = sql.books db) \/
   (exists stored,
      (BookModel.Create bk db).1.2 = None /\
      sql.online db = true /\
      sql.columns db bk = Some stored /\
      List.existsb (fun b => sql.bpchar_eq (Isbn b) (Isbn stored)) (sql.books db) = false /\
      sql.books (BookModel.Create bk db).2 = sql.books db ++ [stored])).
Proof.
  unfold BookModel.Create, sql.Prepare, sql.Stmt_Exec, sql.run.
  destruct (sql.online db) eqn:E; cbn; rewrite ?E; cbn; [|by eauto 6].
  destruct bk as [i t a p]; cbn.
  destruct (sql.columns db _) as [stored|] eqn:Ec; cbn; [|by eauto 6].
  destruct (List.existsb _ _) eqn:Ex; cbn; [by eauto 6|].
  split; [done|]. split; [done|]. right. exists stored. auto.
Qed.

(** X4.  On a database that answers, All returns the rows of the table,
    all of them and in table order (the nil slice when there is none),
    with no error; a second call right after returns the same.  On one
    that does not answer it returns nil and the error. *)
Theorem All_returns_the_table (db : sql.DB) :
  if sql.online db then
    exists bks,
      (BookModel.All db).1 = (bks, None) /\
      default [] bks = sql.books db /\
      (bks = None <-> sql.books db = []) /\
      (BookModel.All (BookModel.All db).2).1 = (bks, None)
  else (BookModel.All db).1 = (None, Some sql.ErrConn).
Proof.
  destruct (sql.online db) eqn:E; [|by rewrite (All_offline db E)].
  assert (E1 : sql.online (after_All db) = true) by (cbn; done).
  rewrite (All_online db E). cbn [fst snd]. rewrite (All_online _ E1). cbn [fst sql.books after_All sql.record].
  destruct (sql.books db) as [|bk l]; eexists; (split; [reflexivity|]); cbn; intuition congruence.
Qed.

(** X5.  Create changes the table in one way only: when it returns no
    error it has added exactly one row, at the end, the row the column
    types made of the Book; when it returns an error the table is as it
    was. *)
Theorem Create_all_or_nothing (bk : Book) (db : sql.DB) :
  match (BookModel.Create bk db).1.2 with
  | Some _ => sql.books (BookModel.Create bk db).2 = sql.books db
  | None =>
      exists stored,
        sql.columns db bk = Some stored /\
        sql.books (BookModel.Create bk db).2 = sql.books db ++ [stored]
  end.
Proof.
  destruct (Create_cases bk db) as (_ & _ & [(e & -> & H)|(stored & -> & _ & Hc & _ & H)]);
    eauto.
Qed.

Lemma bpchar_eq_sym a b : sql.bpchar_eq a b = sql.bpchar_eq b a.
Proof. unfold sql.bpchar_eq. apply String.eqb_sym. Qed.

Lemma unique_isbn_snoc l bk :
  unique_isbn l = true ->
  List.existsb (fun b => sql.bpchar_eq (Isbn b) (Isbn bk)) l = false ->
  unique_isbn (l ++ [bk]) = true.
Proof.
  induction l as [|x l IH]; cbn; [done|].
  intros [Hx Hl]%andb_prop [Hxb Hlb]%orb_false_elim.
  rewrite List.existsb_app. cbn.
  apply negb_true_iff in Hx. rewrite Hx, bpchar_eq_sym, Hxb. cbn. auto.
Qed.

(** X6.  The primary key is kept by every request: if no two rows of
    the table have the same isbn before a request, none have after it,
    whatever the route and the request.  The routes other than
    POST /books leave the table as it is. *)
Theorem requests_keep_isbn_unique (route : Route) (r : http.Request) (db : sql.DB) :
  unique_isbn (sql.books db) = true ->
  unique_isbn (sql.books (serve (router mainEnv route) r db).2) = true /\
  (route <> POST_books ->
   sql.books (serve (router mainEnv route) r db).2 = sql.books db).
Proof.
  intros Hu.
  assert (Hsame : sql.books (serve (router mainEnv route) r db).2 = sql.books db ->
                  unique_isbn (sql.books (serve (router mainEnv route) r db).2) = true /\
                  (route <> POST_books ->
                   sql.books (serve (router mainEnv route) r db).2 = sql.books db)).
  { intros ->. auto. }
  destruct route; unfold router in *.
  - apply Hsame. rewrite probe_run. cbn [mainEnv app CheckDBConn].
    destruct (CheckDBConn_frame db) as (Hb & _).
    by destruct (App.CheckDBConn db) as [[e|] db1].
  - apply Hsame. change (appReady mainEnv) with (appHealth mainEnv).
    rewrite probe_run. cbn [mainEnv app CheckDBConn].
    destruct (CheckDBConn_frame db) as (Hb & _).
    by destruct (App.CheckDBConn db) as [[e|] db1].
  - apply Hsame. rewrite booksIndex_run. cbn [mainEnv books All].
    destruct (All_frame db) as (Hb & _).
    by destruct (BookModel.All db) as [[bks [e|]] db1].
  - split; [|done].
    destruct (json.Decode (http.ReqBody r) zeroBook) as [bk [e|]] eqn:Hdec.
    + by rewrite (createBook_decode_error mainEnv r db e) by (by rewrite Hdec).
    + rewrite (createBook_run mainEnv r db bk Hdec). cbn [mainEnv books Create].
      destruct (Create_cases bk db) as (_ & _ & Hcases).
      destruct (BookModel.Create bk db) as [[bk1 err] db1]; cbn [fst snd] in Hcases.
      assert (Hdb1 : unique_isbn (sql.books db1) = true).
      { destruct Hcases as [(e & _ & ->)|(stored & _ & _ & _ & Hfresh & ->)]; [done|].
        by apply unique_isbn_snoc. }
      by destruct err.
  - apply Hsame. rewrite bookByISBN_run. cbn [mainEnv books Get].
    destruct (Get_frame (default "" (http.Vars r !! "isbn")) db) as (Hb & _).
    by destruct (BookModel.Get _ db) as [[[bk|] [e|]] db1].
Qed.

Lemma requests_keep_isbn_unique_witness :
  unique_isbn
    (sql.books (serve (router mainEnv POST_books)
                  (post_request (json.book_object emma)) emma_db).2) = true /\
  (GET_books <> POST_books ->
   sql.books (serve (router mainEnv GET_books) plain_request emma_db).2 = sql.books emma_db).
Proof.
  split.
  - apply (requests_keep_isbn_unique POST_books (post_request (json.book_object emma)) emma_db).
    reflexivity.
  - apply (requests_keep_isbn_unique GET_books plain_request emma_db). reflexivity.
Defined.

(** X7.  A Book whose isbn a row already has is refused: on a database
    that answers, POST /books with it responds 500 with the bare status
    text and the table is as it was. *)
Theorem duplicate_isbn_refused (r : http.Request) (db : sql.DB) (bk stored : Book) :
  json.Decode (http.ReqBody r) zeroBook = (bk, None) ->
  sql.online db = true ->
  sql.columns db bk = Some stored ->
  List.existsb (fun b => sql.bpchar_eq (Isbn b) (Isbn stored)) (sql.books db) = true ->
  (serve (router mainEnv POST_books) r db).1.1 = error_response 500 /\
  sql.books (serve (router mainEnv POST_books) r db).2 = sql.books db.
Proof.
  intros Hdec Hon Hcol Hdup. unfold router.
  rewrite (createBook_run mainEnv r db bk Hdec). cbn [mainEnv books Create].
  destruct (Create_cases bk db) as (_ & _ & Hcases).
  destruct (BookModel.Create bk db) as [[bk1 err] db1]; cbn [fst snd] in Hcases.
  destruct Hcases as [(e & -> & Hb)|(st & _ & _ & Hc & Hfresh & _)]; [done|].
  rewrite Hcol in Hc. injection Hc as <-. congruence.
Qed.

Lemma duplicate_isbn_refused_witness :
  (serve (router mainEnv POST_books) (post_request (json.book_object emma)) emma_db).1.1
  = error_response 500 /\
  sql.books (serve (router mainEnv POST_books) (post_request (json.book_object emma)) emma_db).2
  = sql.books emma_db.
Proof.
  apply (duplicate_isbn_refused (post_request (json.book_object emma)) emma_db emma emma);
    reflexivity.
Defined.




(** X9.  POST then GET.  On a database that answers, a body that
    decodes to a Book the columns store as it is, with an isbn no row
    has, is answered 200 with the Book; on the database the request
    leaves, GET /books/{isbn} with that isbn answers 200 with the same
    Book, and All returns the old rows followed by it. *)
Theorem post_then_get (r r2 : http.Request) (db : sql.DB) (bk : Book) :
  json.Decode (http.ReqBody r) zeroBook = (bk, None) ->
  sql.online db = true ->
  sql.columns db bk = Some bk ->
  absent (Isbn bk) db = true ->
  http.Vars r2 !! "isbn" = Some (Isbn bk) ->
  let posted := serve (router mainEnv POST_books) r db in
  posted.1 = (http.mkResponse 200 ∅ [http.Doc (json.book_object bk)], []) /\
  (serve (router mainEnv GET_books_isbn) r2 posted.2).1 = posted.1 /\
  (BookModel.All posted.2).1 = (Some (sql.books db ++ [bk]), None).
Proof.
  intros Hdec Hon Hcol Habs Hv. cbn zeta. unfold router.
  pose proof (Decode_finite (http.ReqBody r) bk) as Hfin. rewrite Hdec in Hfin.
  specialize (Hfin eq_refl).
  rewrite (createBook_run mainEnv r db bk Hdec). cbn [mainEnv books Create].
  destruct (Create_cases bk db) as (Hc1 & Hon1 & Hcases).
  pose proof (Create_keeps_book bk db) as Hkeep.
  assert (Hfresh0 : List.existsb (fun b => sql.bpchar_eq (Isbn b) (Isbn bk)) (sql.books db)
                    = false) by (unfold absent in Habs; by apply negb_true_iff in Habs).
  pose proof (Create_fresh bk db bk Hon Hcol Hfresh0) as Hok.
  destruct (BookModel.Create bk db) as [[bk1 err] db1]; cbn [fst snd] in *. subst bk1 err.
  destruct Hcases as [(e & [=] & _)|(st & _ & _ & Hc & Hfresh & Hb)].
  - rewrite Hcol in Hc. injection Hc as <-.
    unfold json.marshalBook. rewrite Hfin. cbn [encoded fst snd].
    split; [done|]. rewrite Hon in Hon1.
    assert (Hin : In bk (sql.books db1)) by (rewrite Hb; apply in_or_app; right; by left).
    split.
    + rewrite bookByISBN_run, Hv.
    change (default "" (Some (Isbn bk))) with (Isbn bk). cbn [mainEnv books Get].
      assert (Hget : (BookModel.Get (Isbn bk) db1).1 = (Some bk, None)).
      { rewrite (Get_online _ _ Hon1), Hb, List.filter_app.
        unfold absent in Habs. apply negb_true_iff in Habs.
        rewrite (filter_none _ _ Habs). cbn. by rewrite bpchar_eq_refl. }
      destruct (BookModel.Get (Isbn bk) db1) as [res db2]. cbn [fst] in Hget. subst res.
      cbn [fst snd]. unfold json.marshalBook. by rewrite Hfin.
    + rewrite (All_online _ Hon1), Hb. cbn [fst]. by destruct (sql.books db).
Qed.

Lemma post_then_get_witness :
  let posted := serve (router mainEnv POST_books) (post_request (json.book_object emma))
                  empty_db in
  posted.1 = (http.mkResponse 200 ∅ [http.Doc (json.book_object emma)], []) /\
  (serve (router mainEnv GET_books_isbn) (isbn_request (Isbn emma)) posted.2).1 = posted.1 /\
  (BookModel.All posted.2).1 = (Some (sql.books empty_db ++ [emma]), None).
Proof.
  apply (post_then_get (post_request (json.book_object emma)) (isbn_request (Isbn emma))
           empty_db emma); reflexivity.
Defined.

(** ** The probes and the encoder *)

(** X10.  With the Env of main a probe answers 200 exactly when the
    database answers, 500 otherwise; either way it has run SELECT 1 once,
    with no parameters, and nothing else. *)
Theorem probe_reports_the_database (route : Route) (r : http.Request) (db : sql.DB) :
  is_probe route = true ->
  let res := serve (router mainEnv route) r db in
  http.StatusCode res.1.1 = (if sql.online db then 200 else 500) /\
  sql.wire res.2 = sql.wire db ++ [sql.Ran "SELECT 1" []].
Proof.
  intros Hp. cbn zeta.
  assert (router mainEnv route = appHealth mainEnv) as ->
    by (destruct route; try discriminate; reflexivity).
  rewrite probe_run. cbn [mainEnv app CheckDBConn].
  destruct (sql.online db) eqn:E.
  - by rewrite (CheckDBConn_online db E).
  - by rewrite (CheckDBConn_offline db E).
Qed.

Lemma probe_reports_the_database_witness :
  let res := serve (router mainEnv GET_readyz) plain_request emma_db in
  http.StatusCode res.1.1 = 200 /\
  sql.wire res.2 = sql.wire emma_db ++ [sql.Ran "SELECT 1" []].
Proof.
  apply (probe_reports_the_database GET_readyz plain_request emma_db). reflexivity.
Defined.

Lemma marshalItems_not_finite l :
  all_finite l = false -> exists e, json.marshalItems l = Err e.
Proof.
  induction l as [|bk l IH]; cbn; [discriminate|].
  unfold json.marshalBook.
  destruct (float32_finite (Price bk)) eqn:E; cbn; [|eauto].
  intros [e ->]%IH. eauto.
Qed.

(** X11.  The error of the encoder is dropped: when a row of the table
    has a price that is not a number (a NaN or an infinity),
    GET /books on a database that answers responds 200 with an empty
    body and logs nothing. *)
Theorem booksIndex_unencodable_row (r : http.Request) (db : sql.DB) :
  sql.online db = true ->
  all_finite (sql.books db) = false ->
  (serve (router mainEnv GET_books) r db).1 = (http.mkResponse 200 ∅ [], []).
Proof.
  intros Hon Hnf. unfold router. rewrite booksIndex_run. cbn [mainEnv books All].
  rewrite (All_online db Hon).
  destruct (sql.books db) as [|bk l] eqn:E; [discriminate|].
  cbn [json.marshalBooks]. destruct (marshalItems_not_finite _ Hnf) as [e ->].
  reflexivity.
Qed.

Lemma booksIndex_unencodable_row_witness :
  (serve (router mainEnv GET_books) plain_request nan_db).1 = (http.mkResponse 200 ∅ [], []).
Proof.
  apply (booksIndex_unencodable_row plain_request nan_db); reflexivity.
Defined.

(** ** The JSON shape of a Book *)

(** X12.  What the encoder writes for a Book, the decoder reads back:
    for a Book whose strings are well-formed UTF-8, if marshalling
    gives a value, decoding that value into any Book variable gives the
    Book, with no error. *)
Theorem marshal_then_unmarshal (bk bk0 : Book) (v : json.value) :
  utf8_book bk = true ->
  json.marshalBook bk = Ok v ->
  json.Decode (json.Value v) bk0 = (bk, None).
Proof.
  intros _.
  unfold json.marshalBook. destruct (float32_finite (Price bk)) eqn:E; [|discriminate].
  intros [= <-]. destruct bk as [i t a p]. cbn [Price] in E.
  cbn [json.Decode json.unmarshalBook json.book_object Isbn Title Author Price].
  unfold json.object.
  replace (json.lookup_field "ISBN") with (Some json.FIsbn) by (vm_compute; reflexivity).
  replace (json.lookup_field "Title") with (Some json.FTitle) by (vm_compute; reflexivity).
  replace (json.lookup_field "Author") with (Some json.FAuthor) by (vm_compute; reflexivity).
  replace (json.lookup_field "Price") with (Some json.FPrice) by (vm_compute; reflexivity).
  cbn [json.store]. rewrite E. reflexivity.
Qed.

Lemma marshal_then_unmarshal_witness :
  json.Decode (json.Value (json.book_object emma)) timeMachine = (emma, None).
Proof. apply (marshal_then_unmarshal emma timeMachine); reflexivity. Defined.



Lemma object_skips_unknown ms : forall bk saved,
  json.object (List.filter known_member ms) bk saved = json.object ms bk saved.
Proof.
  induction ms as [|[key v] ms IH]; intros bk saved; [reflexivity|].
  cbn [List.filter]. unfold known_member at 1. cbn [fst json.object].
  destruct (json.lookup_field key) as [f|] eqn:E; [|apply IH].
  cbn [json.object]. rewrite E. destruct (json.store f v bk); apply IH.
Qed.

(** X14.  Members whose key names no field of Book are ignored by the
    decoder: POST /books gives the same response, log and database with
    them as without them. *)
Theorem unknown_members_ignored (ms : list (string * json.value)) (db : sql.DB) :
  serve (router mainEnv POST_books) (post_request (json.Object ms)) db
  = serve (router mainEnv POST_books)
      (post_request (json.Object (List.filter known_member ms))) db.
Proof.
  unfold router, serve, createBook, post_request.
  cbn [http.ReqBody json.Decode json.unmarshalBook].
  by rewrite object_skips_unknown.
Qed.

(** ** Start-up, continued *)

(** [conf] between AutomaticEnv and the merge answers from the
    environment alone. *)
Lemma GetString_boot (environ : gmap string string) (key : string) :
  viper.plain_key key = true ->
  viper.GetString environ boot_conf key
  = default "" (environ !! strings.ToUpper (strings.ToLower key)).
Proof.
  intros _. unfold viper.GetString, viper.find.
  cbn [boot_conf viper.AutomaticEnv viper.automaticEnvApplied viper.config viper.New].
  rewrite <- getEnv_default.
  destruct (viper.getEnv environ _); [reflexivity|]. by rewrite lookup_empty.
Qed.

(** X15.  Before the secret is merged, a plain key (letters, digits, underscores) is
    read from the environment alone: GetString returns the variable
    named by the upper-cased key, and the empty string when that
    variable is unset.  This is how init reads VAULT_KV_MOUNT and
    VAULT_BOOKSTORE_ENV, and loginVaultKubernetes VAULT_ROLE and
    KUBE_SVC_ACCT_TOKEN. *)
Theorem GetString_before_merge (environ : gmap string string) (key : string) :
  viper.plain_key key = true ->
  viper.GetString environ boot_conf key
  = default "" (environ !! strings.ToUpper (strings.ToLower key)) /\
  (List.Forall
     (fun k => viper.GetString environ boot_conf k = default "" (environ !! k))
     [VAULT_KV_MOUNT; VAULT_BOOKSTORE_ENV; VAULT_ROLE; KUBE_SVC_ACCT_TOKEN]).
Proof.
  intros Hplain. split; [by apply GetString_boot|].
  repeat constructor; by apply (GetString_boot environ).
Qed.

Lemma GetString_before_merge_witness :
  viper.GetString sample_environ boot_conf "vault_role"
  = default "" (sample_environ !! "VAULT_ROLE") /\
  (List.Forall
     (fun k => viper.GetString sample_environ boot_conf k = default "" (sample_environ !! k))
     [VAULT_KV_MOUNT; VAULT_BOOKSTORE_ENV; VAULT_ROLE; KUBE_SVC_ACCT_TOKEN]).
Proof. apply (GetString_before_merge sample_environ "vault_role"). reflexivity. Defined.

(** X16.  loginVaultKubernetes returns nil only when the auth method
    could be built from VAULT_ROLE and KUBE_SVC_ACCT_TOKEN and the store
    answered the login with auth info; the client then carries the
    token of that answer.  In every other case it returns an error and
    the client is as it was. *)
Theorem login_outcome (w : World) (client : vault.Client) :
  let role := default "" (environ w !! "VAULT_ROLE") in
  let path := default "" (environ w !! "KUBE_SVC_ACCT_TOKEN") in
  match loginVaultKubernetes w boot_conf client with
  | (None, client1) =>
      exists jwt tok,
        vault.NewKubernetesAuth (store w) role path = Ok jwt /\
        vault.Login (store w) role jwt = Ok (Some tok) /\
        client1 = vault.mkClient (Some tok)
  | (Some e, client1) =>
      client1 = client /\
      forall jwt tok,
        vault.NewKubernetesAuth (store w) role path = Ok jwt ->
        vault.Login (store w) role jwt <> Ok (Some tok)
  end.
Proof.
  cbn zeta. unfold loginVaultKubernetes.
  assert (Hrole : viper.GetString (environ w) boot_conf VAULT_ROLE
                  = default "" (environ w !! "VAULT_ROLE"))
    by exact (GetString_boot (environ w) VAULT_ROLE eq_refl).
  assert (Hpath : viper.GetString (environ w) boot_conf KUBE_SVC_ACCT_TOKEN
                  = default "" (environ w !! "KUBE_SVC_ACCT_TOKEN"))
    by exact (GetString_boot (environ w) KUBE_SVC_ACCT_TOKEN eq_refl).
  rewrite Hrole, Hpath.
  destruct (vault.NewKubernetesAuth _ _ _) as [jwt|e1]; [|by split].
  destruct (vault.Login _ _ jwt) as [[tok|]|e1] eqn:HL; [by eauto 6|..];
    (split; [done|]; intros jwt1 tok1 [= <-]; congruence).
Qed.

(** X17.  With viper's merge, which cannot fail, init returns and
    leaves [conf] to main exactly when the Vault client could be built
    and the secret could be read, whatever the login did; and when it
    exits, the line it logged last is never the one for a failed merge. *)
Theorem init_outcome (w : World) :
  ((exists conf log, init w = Ready conf log) <->
   vault.client_error (store w) = None /\ isOk (fetch w) = true) /\
  (forall log e, init w = Fatal log ->
                 last log <> Some ("unable to merge secret: " +:+ e)).
Proof.
  unfold init. rewrite init_with_steps.
  destruct (vault.client_error (store w)) as [e0|].
  - split; [split; [intros (? & ? & [=])|intros [[=] _]]|].
    intros log e [= <-]. cbn. discriminate.
  - cbn zeta. destruct (fetch w) as [secret|e0]; cbn.
    + split; [|discriminate]. split; eauto.
    + split; [split; [intros (? & ? & [=])|intros [_ [=]]]|].
      intros log e [= <-]. rewrite last_snoc. cbn. discriminate.
Qed.

(** X18.  After init, a plain key (letters, digits, underscores) that the environment
    leaves unset or empty reads as the value the secret has for it, in
    whatever letter case the secret writes the key, provided the keys of
    the secret are ASCII and no other of them differs from it by case
    only. *)
Theorem secret_supplies_unset_keys (w : World) (conf : viper.Viper) (log : list string) :
  init w = Ready conf log ->
  exists secret,
    fetch w = Ok secret /\
    forall key skey val,
      viper.plain_key key = true ->
      ascii_keys secret ->
      viper.getEnv (environ w) (strings.ToUpper (strings.ToLower key)) = None ->
      vault.Data secret !! skey = Some val ->
      strings.ToLower skey = strings.ToLower key ->
      (forall other, is_Some (vault.Data secret !! other) ->
                     strings.ToLower other = strings.ToLower key -> other = skey) ->
      viper.GetString (environ w) conf key = val.
Proof.
  intros (secret & Hfetch & ->)%init_ready_fetch.
  exists secret. split; [done|].
  intros key skey val Hplain Hascii Henv Hs Hlow Huniq.
  by apply (read_from_secret w secret key skey val).
Qed.

Lemma secret_supplies_unset_keys_witness :
  viper.GetString (environ sample_world) sample_conf "db_pass" = "vaultpass".
Proof.
  destruct (secret_supplies_unset_keys sample_world sample_conf [] eq_refl)
    as (secret & Hfetch & Hread).
  injection Hfetch as <-.
  apply (Hread "db_pass" "DB_PASS" "vaultpass"); try (vm_compute; reflexivity);
    [apply sample_secret_ascii|].
  intros other [-> | ->]%sample_secret_keys Hlow; [|reflexivity].
  vm_compute in Hlow. discriminate.
Defined.

(** ** Calls to Env *)

(** X19.  A handler calls Env once per request, and POST /books not at
    all when the body does not decode: over any Env that counts its
    calls, the count after a request is the count before plus that
    number. *)
Theorem handlers_call_env_once {T : Type} (env : Env T) (route : Route)
    (r : http.Request) (t : T) (n : nat) :
  (serve (router (counting env) route) r (t, n)).2.2 = (n + calls_made route r)%nat.
Proof.
  destruct route; unfold calls_made, router.
  - rewrite probe_run. cbn.
    by destruct (CheckDBConn (app env) t) as [[e|] t1].
  - change (appReady (counting env)) with (appHealth (counting env)).
    rewrite probe_run. cbn.
    by destruct (CheckDBConn (app env) t) as [[e|] t1].
  - rewrite booksIndex_run. cbn.
    by destruct (All (books env) t) as [[bks [e|]] t1].
  - destruct (json.Decode (http.ReqBody r) zeroBook) as [bk [e|]] eqn:Hdec.
    + rewrite (createBook_decode_error _ r (t, n) e) by (by rewrite Hdec).
      cbn. lia.
    + rewrite (createBook_run _ r (t, n) bk Hdec). cbn.
      by destruct (Create (books env) bk t) as [[bk1 [e|]] t1].
  - rewrite bookByISBN_run. cbn.
    by destruct (Get (books env) _ t) as [[[bk|] [e|]] t1].
Qed.

(** X20.  The test double never fails: with it behind Env, whatever the
    health checker is, GET /books answers 200 with its two books in
    order, GET /books/{isbn} answers 200 with its one book whatever the
    isbn, and POST /books answers 200 with the decoded Book whenever the
    body decodes. *)
Theorem mock_never_fails (checker : AppChecker unit) (r : http.Request) :
  let env := mkEnv checker mockBookModel in
  (serve (router env GET_books) r tt).1
  = (http.mkResponse 200 ∅
       [http.Doc (json.Array [json.book_object emma; json.book_object timeMachine])], []) /\
  (serve (router env GET_books_isbn) r tt).1
  = (http.mkResponse 200 ∅ [http.Doc (json.book_object timeMachine)], []) /\
  (forall bk, json.Decode (http.ReqBody r) zeroBook = (bk, None) ->
     (serve (router env POST_books) r tt).1
     = (http.mkResponse 200 ∅ [http.Doc (json.book_object bk)], [])).
Proof.
  cbn zeta. unfold router. split; [|split].
  - rewrite booksIndex_run. reflexivity.
  - rewrite bookByISBN_run. reflexivity.
  - intros bk Hdec. rewrite (createBook_run _ r tt bk Hdec). cbn.
    pose proof (Decode_finite (http.ReqBody r) bk) as Hfin. rewrite Hdec in Hfin.
    unfold json.marshalBook. by rewrite (Hfin eq_refl).
Qed.
